(** * generate_schedule.py: busy intervals from calendar feeds

    A shallow embedding of [generate_schedule.py] and the proofs of the
    properties its specification states.

    The script depends on four libraries whose code is not part of the
    repository: [datetime] (standard library), [pytz], [icalendar] and
    [requests].  They are modelled as follows.

    - [datetime]: dates and naive date-times are records of their
      fields, as in Python; the proleptic Gregorian ordinal is computed
      with CPython's [_ymd2ord] and [_ord2ymd].  Times have a resolution
      of one second (calendar feeds carry no microseconds).  Arithmetic
      that leaves the years 1..9999 raises [OverflowError].
    - [pytz]: a zone is its name and its two offset rules: the offset
      chosen by [localize] for a wall-clock time, and the offset in
      force at a UTC instant (used by [fromutc]).  The zone database is
      a parameter of the run.
    - [icalendar]: a decoded calendar is the list of components that
      [walk] yields; a component is a record of the properties the
      script reads, each optional.
    - [requests]: retrieval and decoding of a feed is a function of the
      run's environment from a URL to either an exception message or a
      decoded calendar. *)

From Stdlib Require Import ZArith List String Ascii Bool Lia DecimalString.
Import ListNotations.
Local Open Scope string_scope.
Local Open Scope list_scope.
Local Open Scope Z_scope.

(** String concatenation; [++] is kept for lists. *)
Infix "+++" := String.append (right associativity, at level 60).

(** ** Results of fallible code *)

(** The exceptions that escape the script's own code.  [SystemExit] is
    what [sys.exit] raises. *)
Inductive exn : Type :=
| AttributeError
| OverflowError
| SystemExit (code : Z).

Inductive result (A : Type) : Type :=
| Ok (a : A)
| Raise (e : exn).
Arguments Ok {A} a.
Arguments Raise {A} e.

Definition bind {A B : Type} (r : result A) (k : A -> result B) : result B :=
  match r with
  | Ok a => k a
  | Raise e => Raise e
  end.

Notation "'let*' x ':=' r 'in' k" := (bind r (fun x => k))
  (at level 10, x pattern, r at level 100, k at level 200).

(** ** The [datetime] module *)

Module Civil.

Record date : Type := mk_date { year : Z; month : Z; day : Z }.

(** A naive [datetime]: a date and a time of day, no [tzinfo]. *)
Record datetime : Type := mk_datetime
  { dt_date : date; hour : Z; minute : Z; second : Z }.

Definition MAXORDINAL : Z := 3652059.

Definition is_leap (y : Z) : bool :=
  (y mod 4 =? 0) && (negb (y mod 100 =? 0) || (y mod 400 =? 0)).

Definition days_before_year (y : Z) : Z :=
  let y1 := y - 1 in y1 * 365 + y1 / 4 - y1 / 100 + y1 / 400.

(** [_DAYS_IN_MONTH] and [_DAYS_BEFORE_MONTH], indexed from 1. *)
Definition DAYS_IN_MONTH (m : Z) : Z :=
  nth (Z.to_nat m) [-1; 31; 28; 31; 30; 31; 30; 31; 31; 30; 31; 30; 31] 0.

Definition DAYS_BEFORE_MONTH (m : Z) : Z :=
  nth (Z.to_nat m) [-1; 0; 31; 59; 90; 120; 151; 181; 212; 243; 273; 304; 334] 0.

Definition days_in_month (y m : Z) : Z :=
  if (m =? 2) && is_leap y then 29 else DAYS_IN_MONTH m.

Definition days_before_month (y m : Z) : Z :=
  DAYS_BEFORE_MONTH m + (if (2 <? m) && is_leap y then 1 else 0).

Definition ymd2ord (y m d : Z) : Z :=
  days_before_year y + days_before_month y m + d.

Definition DI400Y : Z := 146097.
Definition DI100Y : Z := 36524.
Definition DI4Y : Z := 1461.

Definition ord2ymd (n : Z) : date :=
  let n := n - 1 in
  let n400 := n / DI400Y in
  let n := n mod DI400Y in
  let y := n400 * 400 + 1 in
  let n100 := n / DI100Y in
  let n := n mod DI100Y in
  let n4 := n / DI4Y in
  let n := n mod DI4Y in
  let n1 := n / 365 in
  let n := n mod 365 in
  let y := y + n100 * 100 + n4 * 4 + n1 in
  if (n1 =? 4) || (n100 =? 4) then mk_date (y - 1) 12 31
  else
    let leapyear := (n1 =? 3) && (negb (n4 =? 24) || (n100 =? 3)) in
    let m := Z.shiftr (n + 50) 5 in
    let preceding :=
      DAYS_BEFORE_MONTH m + (if (2 <? m) && leapyear then 1 else 0) in
    if n <? preceding then
      let m := m - 1 in
      let preceding :=
        preceding
        - (DAYS_IN_MONTH m + (if (m =? 2) && leapyear then 1 else 0)) in
      mk_date y m (n - preceding + 1)
    else mk_date y m (n - preceding + 1).

Definition toordinal (d : date) : Z := ymd2ord (year d) (month d) (day d).
Definition fromordinal (n : Z) : date := ord2ymd n.

(** [date.weekday()]: Monday is 0, Sunday is 6. *)
Definition weekday (d : date) : Z := (toordinal d + 6) mod 7.

(** The dates Python can construct. *)
Definition valid_date (d : date) : Prop :=
  1 <= year d <= 9999 /\ 1 <= month d <= 12 /\
  1 <= day d <= days_in_month (year d) (month d).

Definition valid_dateb (d : date) : bool :=
  (1 <=? year d) && (year d <=? 9999) && (1 <=? month d) && (month d <=? 12)
  && (1 <=? day d) && (day d <=? days_in_month (year d) (month d)).

(** [date - timedelta(days=n)]. *)
Definition date_sub_days (d : date) (n : Z) : result date :=
  let o := toordinal d - n in
  if (0 <? o) && (o <=? MAXORDINAL) then Ok (fromordinal o)
  else Raise OverflowError.

(** Seconds from the midnight that begins ordinal day 0. *)
Definition to_seconds (t : datetime) : Z :=
  toordinal (dt_date t) * 86400 + hour t * 3600 + minute t * 60 + second t.

Definition of_seconds (s : Z) : datetime :=
  let days := s / 86400 in
  let secs := s mod 86400 in
  mk_datetime (fromordinal days) (secs / 3600) ((secs mod 3600) / 60)
              ((secs mod 3600) mod 60).

(** [datetime + timedelta(seconds=s)] on the naive fields. *)
Definition add_seconds (t : datetime) (s : Z) : result datetime :=
  let total := to_seconds t + s in
  let days := total / 86400 in
  if (0 <? days) && (days <=? MAXORDINAL) then Ok (of_seconds total)
  else Raise OverflowError.

(** [datetime(d.year, d.month, d.day, 0, 0, 0)]. *)
Definition midnight (y m d : Z) : datetime := mk_datetime (mk_date y m d) 0 0 0.

Definition valid_datetime (t : datetime) : Prop :=
  valid_date (dt_date t) /\ 0 <= hour t < 24 /\ 0 <= minute t < 60 /\
  0 <= second t < 60.

End Civil.


(** ** Python's [str] methods, on ASCII text *)

Module Str.

(** [str.isspace] within ASCII: tab to carriage return, the four
    separators 0x1c..0x1f and the space. *)
Definition is_space (c : ascii) : bool :=
  let n := Z.of_nat (nat_of_ascii c) in
  ((9 <=? n) && (n <=? 13)) || ((28 <=? n) && (n <=? 32)).

Definition upper_char (c : ascii) : ascii :=
  let n := nat_of_ascii c in
  if (Nat.leb 97 n && Nat.leb n 122)%bool then ascii_of_nat (n - 32) else c.

Definition lower_char (c : ascii) : ascii :=
  let n := nat_of_ascii c in
  if (Nat.leb 65 n && Nat.leb n 90)%bool then ascii_of_nat (n + 32) else c.

(** [s.upper()]. *)
Fixpoint upper (s : string) : string :=
  match s with
  | EmptyString => EmptyString
  | String c s' => String (upper_char c) (upper s')
  end.

Fixpoint lower (s : string) : string :=
  match s with
  | EmptyString => EmptyString
  | String c s' => String (lower_char c) (lower s')
  end.

Fixpoint lstrip (s : string) : string :=
  match s with
  | EmptyString => EmptyString
  | String c s' => if is_space c then lstrip s' else s
  end.

(** Drops trailing white space: the result is empty when all that is left
    is white space. *)
Fixpoint rstrip (s : string) : string :=
  match s with
  | EmptyString => EmptyString
  | String c s' =>
      match rstrip s' with
      | EmptyString => if is_space c then EmptyString else String c EmptyString
      | r => String c r
      end
  end.

(** [s.strip()]. *)
Definition strip (s : string) : string := rstrip (lstrip s).

(** [s.split(sep)] for a one-character separator: never empty. *)
Fixpoint split (sep : ascii) (s : string) : list string :=
  match s with
  | EmptyString => [EmptyString]
  | String c s' =>
      if Ascii.eqb c sep then EmptyString :: split sep s'
      else match split sep s' with
           | [] => [String c EmptyString]
           | w :: ws => String c w :: ws
           end
  end.

(** [s[:n]]. *)
Definition prefix (n : nat) (s : string) : string := String.substring 0 n s.

(** Truth value of a string: non-empty. *)
Definition truthy (s : string) : bool :=
  match s with EmptyString => false | _ => true end.

(** [str(n)] for a length. *)
Definition of_nat (n : nat) : string := NilZero.string_of_uint (Nat.to_uint n).

Definition digit (n : Z) : ascii := ascii_of_nat (48 + Z.to_nat (n mod 10)).

(** ["%02d" % n] and ["%04d" % n] for [0 <= n] below 100 and 10000. *)
Definition pad2 (n : Z) : string :=
  String (digit (n / 10)) (String (digit n) EmptyString).

Definition pad4 (n : Z) : string :=
  String (digit (n / 1000)) (String (digit (n / 100)) (pad2 n)).

End Str.

(** ** [pytz] zones and aware date-times *)

Module Pytz.
Import Civil.

(** A zone: [local_offset] is the UTC offset, in seconds, that
    [localize] (with its default [is_dst=False]) gives a wall-clock time,
    [utc_offset] the one in force at a UTC instant.  Both take seconds as
    counted by [Civil.to_seconds]. *)
Record tzinfo : Type := mk_tz
  { zone : string; local_offset : Z -> Z; utc_offset : Z -> Z }.

(** An aware [datetime]: wall-clock fields and the offset of its
    [tzinfo]. *)
Record aware : Type := mk_aware { wall : datetime; utcoffset : Z }.

(** The UTC instant, in seconds: what comparisons of aware values use. *)
Definition instant (a : aware) : Z := to_seconds (wall a) - utcoffset a.

Definition UTC : tzinfo := mk_tz "UTC" (fun _ => 0) (fun _ => 0).

(** [pytz.timezone(zone)]: [None] stands for [UnknownTimeZoneError].
    The name UTC is answered before the database is consulted. *)
Definition timezone (db : string -> option tzinfo) (zone : string)
  : option tzinfo :=
  if String.eqb (Str.upper zone) "UTC" then Some UTC else db zone.

(** [tz.localize(t)]. *)
Definition localize (tz : tzinfo) (t : datetime) : aware :=
  mk_aware t (local_offset tz (to_seconds t)).

(** [tz.fromutc]: a UTC wall-clock time expressed in the zone. *)
Definition fromutc (tz : tzinfo) (u : datetime) : result aware :=
  let off := utc_offset tz (to_seconds u) in
  let* w := add_seconds u off in
  Ok (mk_aware w off).

(** [a.astimezone(tz)]: through UTC. *)
Definition astimezone (tz : tzinfo) (a : aware) : result aware :=
  let* u := add_seconds (wall a) (- utcoffset a) in
  fromutc tz u.

(** [a + timedelta(seconds=s)]: the [tzinfo], a fixed offset, is kept. *)
Definition aware_add (a : aware) (s : Z) : result aware :=
  let* w := add_seconds (wall a) s in
  Ok (mk_aware w (utcoffset a)).

(** [_format_offset]. *)
Definition format_offset (off : Z) : string :=
  let sign := if off <? 0 then "-" else "+" in
  let a := Z.abs off in
  let hh := a / 3600 in
  let mm := (a mod 3600) / 60 in
  let ss := (a mod 3600) mod 60 in
  sign +++ Str.pad2 hh +++ ":" +++ Str.pad2 mm
    +++ (if ss =? 0 then "" else ":" +++ Str.pad2 ss).

(** [a.isoformat()]. *)
Definition isoformat (a : aware) : string :=
  let t := wall a in
  let d := dt_date t in
  Str.pad4 (year d) +++ "-" +++ Str.pad2 (month d) +++ "-"
    +++ Str.pad2 (day d) +++ "T" +++ Str.pad2 (hour t) +++ ":"
    +++ Str.pad2 (minute t) +++ ":" +++ Str.pad2 (second t)
    +++ format_offset (utcoffset a).

(** The first Sunday on or after day [d] of month [m]. *)
Definition sunday_from (y m d : Z) : Z :=
  d + (6 - weekday (mk_date y m d)) mod 7.

(** The zone America/New_York under the rules in force since 2007:
    daylight time from 02:00 on the second Sunday of March to 02:00 on
    the first Sunday of November.  [localize] gives standard time to the
    hour that does not exist and to the hour that occurs twice. *)
Definition America_New_York : tzinfo :=
  let starts y := to_seconds (midnight y 3 (sunday_from y 3 8)) + 7200 in
  let ends y := to_seconds (midnight y 11 (sunday_from y 11 1)) + 7200 in
  mk_tz "America/New_York"
    (fun w =>
       let y := year (dt_date (of_seconds w)) in
       if (starts y + 3600 <=? w) && (w <? ends y - 3600)
       then -14400 else -18000)
    (fun u =>
       let y := year (dt_date (of_seconds u)) in
       if (starts y + 18000 <=? u) && (u <? ends y + 14400)
       then -14400 else -18000).

End Pytz.

(** ** Output and effects of the script *)

(** A line printed by the run, on one of the two streams. *)
Inductive out_line : Type :=
| Stdout (s : string)
| Stderr (s : string).

(** A computation that prints and may raise: the lines printed so far and
    the result. *)
Definition M (A : Type) : Type := (list out_line * result A)%type.

Definition ret {A : Type} (a : A) : M A := ([], Ok a).
Definition print (l : out_line) : M unit := ([l], Ok tt).
Definition lift {A : Type} (r : result A) : M A := ([], r).

Definition bindM {A B : Type} (m : M A) (k : A -> M B) : M B :=
  match m with
  | (l, Ok a) => let (l', r) := k a in (l ++ l', r)
  | (l, Raise e) => (l, Raise e)
  end.

Notation "x <- m ;; k" := (bindM m (fun x => k))
  (at level 61, m at next level, right associativity).

(** ** The script *)

Import Civil Pytz.

(** The value of a DTSTART or DTEND property ([.dt]): a [date], a naive
    [datetime] or an aware one. *)
Inductive dt_value : Type :=
| DDate (d : date)
| DNaive (t : datetime)
| DAware (a : aware).

(** A calendar component as [walk] yields it, with the properties that
    [component.get] can return. *)
Record component : Type := mk_component
  { name : string;
    DTSTART : option dt_value;
    DTEND : option dt_value;
    TRANSP : option string;
    X_MICROSOFT_CDO_BUSYSTATUS : option string;
    SUMMARY : option string }.

(** Retrieval and decoding of one feed: the message of the exception
    raised by [requests.get], [raise_for_status] or [Calendar.from_ical],
    or the components of the decoded calendar. *)
Inductive fetched : Type :=
| Failed (exc : string)
| Decoded (cal : list component).

(** An entry of the [events] array. *)
Record event : Type := mk_event
  { ev_start : string; ev_end : string; ev_summary : string }.

(** [config.json], with the keys the script reads. *)
Record config : Type := mk_config
  { cfg_timezone : option string;
    cfg_ownerName : option string;
    cfg_weeklyProjectHours : option Z;
    cfg_workdayStart : option Z;
    cfg_workdayEnd : option Z;
    cfg_icsUrls : option (list string) }.

(** [schedule.json]. *)
Record schedule : Type := mk_schedule
  { lastUpdated : string;
    timezone_field : string;
    ownerName : string;
    weeklyProjectHours : Z;
    workdayStart : Z;
    workdayEnd : Z;
    configured : bool;
    events : list event }.

(** What a run reads from outside: the configuration file when it
    exists, the variable ICS_URLS when it is set, [date.today()], the
    current UTC time in seconds, the zone database and the feeds. *)
Record world : Type := mk_world
  { config_file : option config;
    ICS_URLS : option string;
    today : date;
    utcnow : Z;
    tzdb : string -> option tzinfo;
    feed : string -> fetched }.

(** [d.get(key, default)]. *)
Definition get {A : Type} (o : option A) (default : A) : A :=
  match o with Some a => a | None => default end.

Definition get_fetch_range (tz : tzinfo) (today : date) : result (aware * aware) :=
  let* monday := date_sub_days today (weekday today) in
  let range_start :=
    localize tz (midnight (year monday) (month monday) (day monday)) in
  let* range_end := aware_add range_start (5 * 7 * 86400) in
  Ok (range_start, range_end).

(** [p and str(p).upper() == word], for an optional text property. *)
Definition marked (p : option string) (word : string) : bool :=
  match p with
  | Some s => Str.truthy s && String.eqb (Str.upper s) word
  | None => false
  end.

(** [datetime(raw.year, raw.month, raw.day, 0, 0, 0)]: the three fields
    exist on dates and on date-times. *)
Definition date_fields (raw : dt_value) : date :=
  match raw with
  | DDate d => d
  | DNaive t => dt_date t
  | DAware a => dt_date (wall a)
  end.

Definition day_start (raw : dt_value) : datetime :=
  let d := date_fields raw in midnight (year d) (month d) (day d).

(** [raw if raw.tzinfo else local_tz.localize(raw)]: a [date] has no
    attribute [tzinfo]. *)
Definition attach (local_tz : tzinfo) (raw : dt_value) : result aware :=
  match raw with
  | DDate _ => Raise AttributeError
  | DNaive t => Ok (localize local_tz t)
  | DAware a => Ok a
  end.

(** Lines 83-96: both ends as aware date-times in [local_tz]. *)
Definition normalise (local_tz : tzinfo) (raw_start raw_end : dt_value)
  : result (aware * aware) :=
  match raw_start with
  | DDate _ =>
      Ok (localize local_tz (day_start raw_start),
          localize local_tz (day_start raw_end))
  | _ =>
      let* start := attach local_tz raw_start in
      let* end_ := attach local_tz raw_end in
      let* start := astimezone local_tz start in
      let* end_ := astimezone local_tz end_ in
      Ok (start, end_)
  end.

(** Line 99: [start >= range_end or end <= range_start]. *)
Definition outside (start end_ range_start range_end : aware) : bool :=
  (instant range_end <=? instant start) || (instant end_ <=? instant range_start).

(** One turn of the loop of [parse_ics_url]: the event appended, if any. *)
Definition parse_component (range_start range_end : aware) (local_tz : tzinfo)
    (c : component) : result (option event) :=
  if negb (String.eqb (name c) "VEVENT") then Ok None
  else
    let dtstart := DTSTART c in
    let dtend := match DTEND c with Some e => Some e | None => DTSTART c end in
    match dtstart with
    | None => Ok None
    | Some raw_start =>
        if marked (TRANSP c) "TRANSPARENT" then Ok None
        else if marked (X_MICROSOFT_CDO_BUSYSTATUS c) "FREE" then Ok None
        else
          let raw_end := match dtend with Some e => e | None => raw_start end in
          let* (start, end_) := normalise local_tz raw_start raw_end in
          if outside start end_ range_start range_end then Ok None
          else Ok (Some (mk_event (isoformat start) (isoformat end_) "Busy"))
    end.

(** The loop over [cal.walk()]. *)
Fixpoint parse_components (range_start range_end : aware) (local_tz : tzinfo)
    (cal : list component) : result (list event) :=
  match cal with
  | [] => Ok []
  | c :: rest =>
      let* o := parse_component range_start range_end local_tz c in
      let* evs := parse_components range_start range_end local_tz rest in
      Ok (match o with Some e => e :: evs | None => evs end)
  end.

Definition parse_ics_url (feed : string -> fetched) (url : string)
    (range_start range_end : aware) (local_tz : tzinfo) : M (list event) :=
  match feed url with
  | Failed exc =>
      _ <- print (Stderr ("  ⚠️  Could not fetch " +++ Str.prefix 70 url
                            +++ ": " +++ exc)) ;;
      ret []
  | Decoded cal => lift (parse_components range_start range_end local_tz cal)
  end.

(** Lines 133-139: the feed locations. *)
Definition PLACEHOLDER : string := "YOUR_ICS_URL_HERE".

Definition resolve_ics_urls (env_urls : string) (cfg : config) : list string :=
  if Str.truthy (Str.strip env_urls) then
    map Str.strip
        (filter (fun u => Str.truthy (Str.strip u)) (Str.split "," env_urls))
  else
    filter (fun u => Str.truthy u && negb (String.eqb u PLACEHOLDER))
           (get (cfg_icsUrls cfg) []).

(** Lines 125-128. *)
Definition resolve_timezone (db : string -> option tzinfo) (tz_name : string)
  : M tzinfo :=
  match Pytz.timezone db tz_name with
  | Some tz => ret tz
  | None =>
      _ <- print (Stderr ("Unknown timezone '" +++ tz_name +++ "'. Using UTC.")) ;;
      ret UTC
  end.

(** Lines 145-149: the loop over the feed locations. *)
Fixpoint fetch_all (feed : string -> fetched) (range_start range_end : aware)
    (local_tz : tzinfo) (ics_urls : list string) : M (list event) :=
  match ics_urls with
  | [] => ret []
  | url :: rest =>
      _ <- print (Stdout ("Fetching: " +++ Str.prefix 70 url +++ "…")) ;;
      evts <- parse_ics_url feed url range_start range_end local_tz ;;
      _ <- print (Stdout ("  → " +++ Str.of_nat (List.length evts)
                            +++ " event(s) found")) ;;
      more <- fetch_all feed range_start range_end local_tz rest ;;
      ret (evts ++ more)
  end.

(** Lines 130-166 of [main]: the run once the zone is resolved. *)
Definition run (w : world) (config : config) (tz_name : string)
    (local_tz : tzinfo) : M schedule :=
  let env_urls := get (ICS_URLS w) "" in
  let ics_urls := resolve_ics_urls env_urls config in
  let configured := (0 <? List.length ics_urls)%nat in
  range <- lift (get_fetch_range local_tz (today w)) ;;
  let (range_start, range_end) := (range : aware * aware) in
  all_events <- fetch_all (feed w) range_start range_end local_tz ics_urls ;;
  now <- lift (fromutc local_tz (of_seconds (utcnow w))) ;;
  let output :=
    mk_schedule (isoformat now) tz_name
                (get (cfg_ownerName config) "Nikki")
                (get (cfg_weeklyProjectHours config) 20)
                (get (cfg_workdayStart config) 8)
                (get (cfg_workdayEnd config) 19)
                configured all_events in
  _ <- print (Stdout (String (ascii_of_nat 10) "✅ schedule.json written ("
                        +++ Str.of_nat (List.length all_events)
                        +++ " total event(s))")) ;;
  ret output.

(** [main]: the document written to [schedule.json]. *)
Definition main (w : world) : M schedule :=
  match config_file w with
  | None =>
      _ <- print (Stderr "config.json not found.") ;;
      lift (Raise (SystemExit 1))
  | Some config =>
      let tz_name := get (cfg_timezone config) "UTC" in
      local_tz <- resolve_timezone (tzdb w) tz_name ;;
      run w config tz_name local_tz
  end.

(** ** Notions used by the statements *)

(** Seconds that fall within the years 1..9999, where [datetime] values
    exist. *)
Definition representable (s : Z) : Prop := 0 < s / 86400 <= MAXORDINAL.

(** A date moved by [k] periods of 400 years. *)
Definition shift_years (k : Z) (d : date) : date :=
  mk_date (year d + 400 * k) (month d) (day d).

(** [test] holds of the [k] integers from [r] on. *)
Fixpoint check_from (test : Z -> bool) (k : nat) (r : Z) : bool :=
  match k with
  | O => true
  | S k' => test r && check_from test k' (r + 1)
  end.

(** Equality of two texts up to the case of their ASCII letters. *)
Fixpoint equal_nocase (a b : string) : bool :=
  match a, b with
  | EmptyString, EmptyString => true
  | String x a', String y b' =>
      Ascii.eqb (Str.lower_char x) (Str.lower_char y) && equal_nocase a' b'
  | _, _ => false
  end.

(** An optional text property that is present and equals [word] up to
    case. *)
Definition says (p : option string) (word : string) : Prop :=
  exists s, p = Some s /\ equal_nocase s word = true.

(** [sep.join(pieces)]. *)
Fixpoint join (sep : ascii) (pieces : list string) : string :=
  match pieces with
  | [] => EmptyString
  | [p] => p
  | p :: rest => p +++ String sep (join sep rest)
  end.

Fixpoint all_chars (f : ascii -> bool) (s : string) : bool :=
  match s with
  | EmptyString => true
  | String c s' => f c && all_chars f s'
  end.

Definition first_char (s : string) : option ascii :=
  match s with EmptyString => None | String c _ => Some c end.

Fixpoint last_char (s : string) : option ascii :=
  match s with
  | EmptyString => None
  | String c EmptyString => Some c
  | String _ s' => last_char s'
  end.

(** [t] is [s] without the white space around it. *)
Definition trimmed (s t : string) : Prop :=
  (exists l r, s = l +++ t +++ r /\
               all_chars Str.is_space l = true /\
               all_chars Str.is_space r = true) /\
  (forall c, first_char t = Some c -> Str.is_space c = false) /\
  (forall c, last_char t = Some c -> Str.is_space c = false).

(** The feed locations as the specification words them: the entries of
    the variable, trimmed, without the empty ones, when the variable is not
    blank; otherwise the list of the configuration file without the
    placeholder. *)
Definition claimed_ics_urls (env_urls : string) (cfg : config) : list string :=
  if String.eqb (Str.strip env_urls) "" then
    filter (fun u => negb (String.eqb u PLACEHOLDER)) (get (cfg_icsUrls cfg) [])
  else
    filter (fun u => negb (String.eqb u ""))
           (map Str.strip (Str.split "," env_urls)).

(** The same with the empty entries of the configuration file left out
    too. *)
Definition amended_ics_urls (env_urls : string) (cfg : config) : list string :=
  if String.eqb (Str.strip env_urls) "" then
    filter (fun u => negb (String.eqb u "") && negb (String.eqb u PLACEHOLDER))
           (get (cfg_icsUrls cfg) [])
  else
    filter (fun u => negb (String.eqb u ""))
           (map Str.strip (Str.split "," env_urls)).

(** A component with another title, and a feed whose events are retitled
    by [g]. *)
Definition with_summary (t : option string) (c : component) : component :=
  mk_component (name c) (DTSTART c) (DTEND c) (TRANSP c)
               (X_MICROSOFT_CDO_BUSYSTATUS c) t.

Definition retitle (g : component -> option string) (f : fetched) : fetched :=
  match f with
  | Failed exc => Failed exc
  | Decoded cal => Decoded (map (fun c => with_summary (g c) c) cal)
  end.

(** A component with an explicit end. *)
Definition with_dtend (e : option dt_value) (c : component) : component :=
  mk_component (name c) (DTSTART c) e (TRANSP c)
               (X_MICROSOFT_CDO_BUSYSTATUS c) (SUMMARY c).

(** The half-open overlap test of the specification. *)
Definition overlaps (start end_ range_start range_end : aware) : Prop :=
  instant start < instant range_end /\ instant range_start < instant end_.

(** The instant that a DTSTART or DTEND value denotes for the script: a
    naive date-time is read in the configured zone, an aware one carries
    its own offset; a date denotes none. *)
Definition instant_of (local_tz : tzinfo) (raw : dt_value) : option Z :=
  match raw with
  | DDate _ => None
  | DNaive t => Some (to_seconds t - local_offset local_tz (to_seconds t))
  | DAware a => Some (instant a)
  end.

(** [a] is the instant [i] expressed in the zone [tz]. *)
Definition in_zone (tz : tzinfo) (a : aware) (i : Z) : Prop :=
  instant a = i /\ utcoffset a = utc_offset tz i /\
  wall a = of_seconds (i + utc_offset tz i).

(** The kinds of lines a run prints. *)
Definition timezone_warning (l : out_line) : Prop :=
  exists tz_name, l = Stderr ("Unknown timezone '" +++ tz_name +++ "'. Using UTC.").

Definition fetch_warning (l : out_line) : Prop :=
  exists url exc, l = Stderr ("  ⚠️  Could not fetch " +++ url +++ ": " +++ exc).

Definition progress (l : out_line) : Prop := exists s, l = Stdout s.

(** ** Sample inputs *)

Module Sample.

(** The window of a run on Wednesday 2024-06-12, in UTC. *)
Definition range_start : aware := localize UTC (midnight 2024 6 10).
Definition range_end : aware := mk_aware (midnight 2024 7 15) 0.

Definition at_utc (y m d hh mm : Z) : dt_value :=
  DAware (mk_aware (mk_datetime (mk_date y m d) hh mm 0) 0).

(** An event from Sunday 23:00 to Monday 01:00, across the start of the
    window. *)
Definition straddling : component :=
  mk_component "VEVENT" (Some (at_utc 2024 6 9 23 0))
               (Some (at_utc 2024 6 10 1 0)) None None (Some "Night shift").

(** An all-day event with a title. *)
Definition dentist : component :=
  mk_component "VEVENT" (Some (DDate (mk_date 2024 6 10)))
               (Some (DDate (mk_date 2024 6 11))) None None (Some "Dentist").

(** A call with no end. *)
Definition call : component :=
  mk_component "VEVENT" (Some (at_utc 2024 6 14 15 30)) None
               (Some "OPAQUE") None (Some "Call").

(** A lunch that does not block time. *)
Definition lunch : component :=
  mk_component "VEVENT"
               (Some (DNaive (mk_datetime (mk_date 2024 6 14) 12 0 0)))
               (Some (DNaive (mk_datetime (mk_date 2024 6 14) 13 0 0)))
               (Some "Transparent") None (Some "Lunch").

(** A tentative slot that Outlook marks free. *)
Definition slot : component :=
  mk_component "VEVENT" (Some (at_utc 2024 6 17 9 0))
               (Some (at_utc 2024 6 17 10 0)) None (Some "Free") None.

Definition feed (url : string) : fetched :=
  if String.eqb url "http://c" then Decoded [dentist; call; lunch; slot]
  else Failed "404 Client Error".

Definition zones (z : string) : option tzinfo :=
  if String.eqb z "America/New_York" then Some America_New_York else None.

Definition cfg : config :=
  mk_config (Some "Mars/Phobos") None None None None
            (Some [""; "http://c"; "YOUR_ICS_URL_HERE"]).

Definition w : world :=
  mk_world (Some cfg) None (mk_date 2024 6 12)
           (to_seconds (mk_datetime (mk_date 2024 6 12) 9 0 5)) zones feed.

End Sample.
(** ** Further notions *)

(** [component.name == "VEVENT"]. *)
Definition is_vevent (c : component) : bool := String.eqb (name c) "VEVENT".


(** An event that is not marked free, starts with a date-time and ends
    with a date. *)
Definition mixed_ends (c : component) : Prop :=
  name c = "VEVENT" /\
  marked (TRANSP c) "TRANSPARENT" = false /\
  marked (X_MICROSOFT_CDO_BUSYSTATUS c) "FREE" = false /\
  (exists raw_start, DTSTART c = Some raw_start /\
                     forall d, raw_start <> DDate d) /\
  (exists d, DTEND c = Some (DDate d)).


(** An event that starts on Friday at noon and ends on a date. *)
Definition Sample_mixed : component :=
  mk_component "VEVENT" (Some (Sample.at_utc 2024 6 14 12 0))
               (Some (DDate (mk_date 2024 6 15))) None None (Some "Trip").

(** A time-zone component, as calendars carry them. *)
Definition Sample_vtimezone : component :=
  mk_component "VTIMEZONE" None None None None None.

(** An event whose end is an hour before its start. *)
Definition Sample_backwards : component :=
  mk_component "VEVENT" (Some (Sample.at_utc 2024 6 14 15 30))
               (Some (Sample.at_utc 2024 6 14 14 30)) None None (Some "Oops").

(** The world with another value of the variable ICS_URLS. *)
Definition with_ICS_URLS (v : option string) (w : world) : world :=
  mk_world (config_file w) v (today w) (utcnow w) (tzdb w) (feed w).

(** * Proofs *)

(** ** The calendar *)

Module CivilFacts.

Lemma check_from_sound (test : Z -> bool) (k : nat) :
  forall r, check_from test k r = true ->
            forall i, r <= i < r + Z.of_nat k -> test i = true.
Proof.
  induction k as [|k IH]; intros r H i Hi.
  - simpl in Hi. lia.
  - cbn [check_from] in H. apply andb_true_iff in H as [H1 H2].
    destruct (Z.eq_dec i r) as [->|Hne]; [exact H1|].
    apply (IH (r + 1) H2). lia.
Qed.

(** The 146097 days of one period of 400 years, one by one. *)
Lemma cycle_checked :
  check_from (fun r => toordinal (ord2ymd (r + 1)) =? r + 1)
             (Z.to_nat 146097) 0 = true.
Proof. vm_cast_no_check (eq_refl true). Qed.

Lemma is_leap_period (y k : Z) : is_leap (y + 400 * k) = is_leap y.
Proof.
  unfold is_leap.
  replace (y + 400 * k) with (y + (100 * k) * 4) at 1 by lia.
  replace (y + 400 * k) with (y + (4 * k) * 100) at 1 by lia.
  replace (y + 400 * k) with (y + k * 400) by lia.
  now rewrite !Z.mod_add by lia.
Qed.

Lemma days_before_year_period (y k : Z) :
  days_before_year (y + 400 * k) = days_before_year y + 146097 * k.
Proof.
  unfold days_before_year. cbv zeta.
  replace (y + 400 * k - 1) with (y - 1 + (100 * k) * 4) at 2 by lia.
  replace (y + 400 * k - 1) with (y - 1 + (4 * k) * 100) at 2 by lia.
  replace (y + 400 * k - 1) with (y - 1 + k * 400) at 2 by lia.
  rewrite !Z.div_add by lia. lia.
Qed.

Lemma toordinal_shift (k : Z) (d : date) :
  toordinal (shift_years k d) = toordinal d + 146097 * k.
Proof.
  unfold toordinal, shift_years, ymd2ord, days_before_month.
  cbn [year month day].
  rewrite is_leap_period, days_before_year_period. lia.
Qed.

(** [ord2ymd] works within the period of 400 years that holds the day. *)
Lemma ord2ymd_period (n : Z) :
  ord2ymd n
  = shift_years ((n - 1) / 146097) (ord2ymd ((n - 1) mod 146097 + 1)).
Proof.
  pose proof (Z.mod_pos_bound (n - 1) 146097 ltac:(lia)) as Hr.
  set (q := (n - 1) / 146097). set (r := (n - 1) mod 146097) in *.
  unfold ord2ymd, DI400Y. cbv zeta.
  replace (r + 1 - 1) with r by lia.
  rewrite (Z.div_small r 146097), (Z.mod_small r 146097) by lia.
  fold q. fold r.
  destruct ((r mod DI100Y mod DI4Y / 365 =? 4) || (r / DI100Y =? 4)).
  - unfold shift_years; cbn [year month day]. f_equal. lia.
  - match goal with |- context [if ?c then _ else _] => destruct c end;
      unfold shift_years; cbn [year month day]; f_equal; lia.
Qed.

Lemma cycle_roundtrip (r : Z) :
  0 <= r < 146097 -> toordinal (ord2ymd (r + 1)) = r + 1.
Proof.
  intros Hr.
  pose proof (check_from_sound _ (Z.to_nat 146097) 0 cycle_checked r) as H.
  cbv beta in H. apply Z.eqb_eq, H.
  rewrite Z2Nat.id; lia.
Qed.

Theorem toordinal_fromordinal (n : Z) : toordinal (fromordinal n) = n.
Proof.
  unfold fromordinal. rewrite ord2ymd_period, toordinal_shift.
  pose proof (Z.mod_pos_bound (n - 1) 146097 ltac:(lia)) as Hr.
  rewrite cycle_roundtrip by exact Hr.
  pose proof (Z.div_mod (n - 1) 146097 ltac:(lia)). lia.
Qed.

Lemma weekday_range (d : date) : 0 <= weekday d < 7.
Proof. unfold weekday. apply Z.mod_pos_bound. lia. Qed.

Theorem to_seconds_of_seconds (s : Z) : to_seconds (of_seconds s) = s.
Proof.
  unfold to_seconds, of_seconds. cbn [dt_date hour minute second].
  rewrite toordinal_fromordinal.
  pose proof (Z.div_mod s 86400 ltac:(lia)).
  pose proof (Z.div_mod (s mod 86400) 3600 ltac:(lia)).
  pose proof (Z.div_mod ((s mod 86400) mod 3600) 60 ltac:(lia)).
  lia.
Qed.

Lemma to_seconds_midnight (y m d : Z) :
  to_seconds (midnight y m d) = toordinal (mk_date y m d) * 86400.
Proof. unfold to_seconds, midnight. cbn. lia. Qed.

Lemma add_seconds_Ok (t : datetime) (s : Z) :
  representable (to_seconds t + s) ->
  add_seconds t s = Ok (of_seconds (to_seconds t + s)).
Proof.
  unfold representable, add_seconds. intros [H1 H2]. cbv zeta.
  apply Z.ltb_lt in H1. apply Z.leb_le in H2. now rewrite H1, H2.
Qed.

Lemma add_seconds_inv (t : datetime) (s : Z) (t' : datetime) :
  add_seconds t s = Ok t' ->
  t' = of_seconds (to_seconds t + s) /\ representable (to_seconds t + s).
Proof.
  unfold representable, add_seconds. cbv zeta.
  destruct (0 <? _) eqn:H1; [|discriminate].
  destruct (_ <=? MAXORDINAL) eqn:H2; [|discriminate].
  cbn. intros [= <-]. split; [reflexivity|].
  apply Z.ltb_lt in H1. apply Z.leb_le in H2. lia.
Qed.

Lemma add_seconds_to_seconds (t : datetime) (s : Z) (t' : datetime) :
  add_seconds t s = Ok t' -> to_seconds t' = to_seconds t + s.
Proof.
  intros H. apply add_seconds_inv in H as [-> _].
  apply to_seconds_of_seconds.
Qed.

End CivilFacts.

(** ** Zones and aware date-times *)

Module PytzFacts.
Import CivilFacts.

Lemma instant_localize (tz : tzinfo) (t : datetime) :
  instant (localize tz t) = to_seconds t - local_offset tz (to_seconds t).
Proof. reflexivity. Qed.

Lemma fromutc_inv (tz : tzinfo) (u : datetime) (a : aware) :
  fromutc tz u = Ok a ->
  utcoffset a = utc_offset tz (to_seconds u) /\
  wall a = of_seconds (to_seconds u + utc_offset tz (to_seconds u)) /\
  instant a = to_seconds u.
Proof.
  unfold fromutc. cbv zeta.
  destruct (add_seconds u _) as [w|e] eqn:Hw; cbn; [|discriminate].
  intros [= <-]. apply add_seconds_inv in Hw as [-> _].
  unfold instant. cbn. rewrite to_seconds_of_seconds.
  repeat split; lia.
Qed.

Lemma fromutc_Ok (tz : tzinfo) (u : datetime) :
  representable (to_seconds u + utc_offset tz (to_seconds u)) ->
  exists a, fromutc tz u = Ok a.
Proof.
  intros H. unfold fromutc. cbv zeta.
  rewrite (add_seconds_Ok _ _ H). cbn. eauto.
Qed.

(** Conversion to a zone keeps the instant and takes the offset the zone
    has at that instant. *)
Lemma astimezone_inv (tz : tzinfo) (a b : aware) :
  astimezone tz a = Ok b ->
  instant b = instant a /\
  utcoffset b = utc_offset tz (instant a) /\
  wall b = of_seconds (instant a + utc_offset tz (instant a)).
Proof.
  unfold astimezone.
  destruct (add_seconds (wall a) _) as [u|e] eqn:Hu; cbn; [|discriminate].
  intros Hb. apply fromutc_inv in Hb as (Ho & Hw & Hi).
  apply add_seconds_to_seconds in Hu.
  assert (to_seconds u = instant a) as E by (unfold instant; lia).
  rewrite E in *. auto.
Qed.

Lemma astimezone_Ok (tz : tzinfo) (a : aware) :
  representable (instant a) ->
  representable (instant a + utc_offset tz (instant a)) ->
  exists b, astimezone tz a = Ok b.
Proof.
  intros H1 H2. unfold astimezone.
  assert (to_seconds (wall a) + - utcoffset a = instant a) as E
      by (unfold instant; lia).
  rewrite add_seconds_Ok by (now rewrite E). cbn.
  apply fromutc_Ok. now rewrite to_seconds_of_seconds, E.
Qed.

Lemma aware_add_inv (a : aware) (s : Z) (b : aware) :
  aware_add a s = Ok b ->
  utcoffset b = utcoffset a /\ instant b = instant a + s /\
  to_seconds (wall b) = to_seconds (wall a) + s.
Proof.
  unfold aware_add.
  destruct (add_seconds (wall a) s) as [w|e] eqn:Hw; cbn; [|discriminate].
  intros [= <-]. apply add_seconds_to_seconds in Hw.
  unfold instant. cbn. repeat split; lia.
Qed.

End PytzFacts.

Import CivilFacts PytzFacts.

(** ** The monad of the run *)

Lemma bindM_Ok {A B : Type} (m : M A) (k : A -> M B) (log : list out_line) (b : B) :
  bindM m k = (log, Ok b) ->
  exists l1 a l2, m = (l1, Ok a) /\ k a = (l2, Ok b) /\ log = l1 ++ l2.
Proof.
  destruct m as [l1 [a|e]]; cbn; [|discriminate].
  destruct (k a) as [l2 r] eqn:Hk. intros [= <- ->]. eauto 6.
Qed.

Lemma snd_bindM {A B : Type} (m : M A) (k : A -> M B) :
  snd (bindM m k) = let* a := snd m in snd (k a).
Proof.
  destruct m as [l [a|e]]; cbn; [|reflexivity]. now destruct (k a).
Qed.

Lemma lift_Ok {A : Type} (r : result A) (log : list out_line) (a : A) :
  lift r = (log, Ok a) -> r = Ok a /\ log = [].
Proof. unfold lift. now intros [= <- ->]. Qed.

(** ** The run *)

Section Run.

(** What a run that writes its document has computed. *)
Lemma run_inv (w : world) (cfg : config) (tz_name : string) (tz : tzinfo)
      (log : list out_line) (out : schedule) :
  run w cfg tz_name tz = (log, Ok out) ->
  exists range_start range_end now,
    get_fetch_range tz (today w) = Ok (range_start, range_end) /\
    snd (fetch_all (feed w) range_start range_end tz
                   (resolve_ics_urls (get (ICS_URLS w) "") cfg))
    = Ok (events out) /\
    fromutc tz (of_seconds (utcnow w)) = Ok now /\
    lastUpdated out = isoformat now /\
    timezone_field out = tz_name.
Proof.
  unfold run. cbv zeta. intros H.
  apply bindM_Ok in H as (l1 & [rs re] & l2 & H1 & H & _).
  apply lift_Ok in H1 as [H1 _].
  apply bindM_Ok in H as (l3 & evs & l4 & H2 & H & _).
  apply bindM_Ok in H as (l5 & now & l6 & H3 & H & _).
  apply lift_Ok in H3 as [H3 _].
  apply bindM_Ok in H as (l7 & [] & l8 & _ & H & _).
  unfold ret in H. injection H as _ <-.
  exists rs, re, now. cbn. rewrite H2. auto.
Qed.

(** Every feed is parsed with the window the loop was given. *)
Lemma fetch_all_cons (fd : string -> fetched) (rs re : aware) (tz : tzinfo)
      (url : string) (rest : list string) :
  snd (fetch_all fd rs re tz (url :: rest))
  = let* evts := snd (parse_ics_url fd url rs re tz) in
    let* more := snd (fetch_all fd rs re tz rest) in
    Ok (evts ++ more).
Proof.
  cbn [fetch_all]. unfold bindM, print, ret.
  destruct (parse_ics_url fd url rs re tz) as [l [evts|e]]; cbn;
    [|reflexivity].
  now destruct (fetch_all fd rs re tz rest) as [l' [more|e]].
Qed.

End Run.

(** ** The fetch window *)

Lemma monday_ordinal (o : Z) : (o - (o + 6) mod 7 + 6) mod 7 = 0.
Proof.
  pose proof (Z.div_mod (o + 6) 7 ltac:(lia)) as H.
  replace (o - (o + 6) mod 7 + 6) with (((o + 6) / 7) * 7) by lia.
  apply Z.mod_mul. lia.
Qed.

(** C2.  For a run on a day [today] (not within the first week of year 1
    or the last five of year 9999), [get_fetch_range] returns a window
    whose start is midnight, localized in the configured zone, of a day
    [monday] that is a Monday and lies in the seven days ending with
    [today], and whose end is exactly 35 days of 86400 seconds after the
    start, with the same offset; a run computes this window once and hands
    it to the loop over all the feeds. *)
Theorem C2_fetch_window (tz : tzinfo) (today_ : date)
        (Hlo : 7 <= toordinal today_)
        (Hhi : toordinal today_ + 35 <= MAXORDINAL) :
  exists monday range_start range_end,
    get_fetch_range tz today_ = Ok (range_start, range_end) /\
    weekday monday = 0 /\
    toordinal monday <= toordinal today_ < toordinal monday + 7 /\
    range_start = localize tz (mk_datetime monday 0 0 0) /\
    instant range_end = instant range_start + 35 * 86400 /\
    to_seconds (wall range_end) = to_seconds (wall range_start) + 35 * 86400 /\
    utcoffset range_end = utcoffset range_start /\
    forall (w : world) (cfg : config) (tz_name : string)
           (log : list out_line) (out : schedule),
      today w = today_ ->
      run w cfg tz_name tz = (log, Ok out) ->
      snd (fetch_all (feed w) range_start range_end tz
                     (resolve_ics_urls (get (ICS_URLS w) "") cfg))
      = Ok (events out).
Proof.
  pose proof (CivilFacts.weekday_range today_) as Hwd.
  set (o := toordinal today_ - weekday today_).
  assert (date_sub_days today_ (weekday today_) = Ok (fromordinal o)) as Hsub.
  { unfold date_sub_days. fold o. cbv zeta.
    replace (0 <? o) with true by (symmetry; apply Z.ltb_lt; lia).
    replace (o <=? MAXORDINAL) with true by (symmetry; apply Z.leb_le; lia).
    reflexivity. }
  pose proof (CivilFacts.toordinal_fromordinal o) as Ho.
  set (monday := fromordinal o) in *.
  set (range_start := localize tz (mk_datetime monday 0 0 0)).
  assert (to_seconds (wall range_start) = o * 86400) as Hs.
  { unfold range_start. cbn. unfold to_seconds. cbn. lia. }
  assert (exists range_end, aware_add range_start (5 * 7 * 86400) = Ok range_end)
    as [range_end Hadd].
  { unfold aware_add. rewrite CivilFacts.add_seconds_Ok.
    - cbn. eauto.
    - rewrite Hs. unfold representable.
      replace (o * 86400 + 5 * 7 * 86400) with ((o + 35) * 86400) by lia.
      rewrite Z.div_mul by lia. lia. }
  assert (get_fetch_range tz today_ = Ok (range_start, range_end)) as Hget.
  { unfold get_fetch_range. rewrite Hsub. cbn [bind].
    fold monday. replace (midnight (year monday) (month monday) (day monday))
      with (mk_datetime monday 0 0 0) by (unfold midnight; now destruct monday).
    fold range_start. now rewrite Hadd. }
  apply PytzFacts.aware_add_inv in Hadd as (Hoff & Hinst & Hwall).
  exists monday, range_start, range_end.
  split; [exact Hget|]. split.
  { unfold weekday. rewrite Ho. unfold o, weekday. apply monday_ordinal. }
  split; [rewrite Ho; lia|]. split; [reflexivity|].
  split; [lia|]. split; [lia|]. split; [exact Hoff|].
  intros w cfg tz_name log out Ht Hrun.
  apply run_inv in Hrun as (rs & re & now & Hr & Hev & _).
  rewrite Ht, Hget in Hr. now injection Hr as <- <-.
Qed.

(** The run of Wednesday 2024-06-12 in New York: the window starts on
    Monday 2024-06-10. *)
Lemma C2_fetch_window_witness :
  7 <= toordinal (mk_date 2024 6 12) /\
  toordinal (mk_date 2024 6 12) + 35 <= MAXORDINAL /\
  exists monday range_start range_end,
    get_fetch_range America_New_York (mk_date 2024 6 12)
    = Ok (range_start, range_end) /\
    monday = mk_date 2024 6 10 /\
    isoformat range_start = "2024-06-10T00:00:00-04:00" /\
    instant range_end = instant range_start + 35 * 86400.
Proof.
  assert (7 <= toordinal (mk_date 2024 6 12)) as H1
      by (vm_compute; discriminate).
  assert (toordinal (mk_date 2024 6 12) + 35 <= MAXORDINAL) as H2
      by (vm_compute; discriminate).
  split; [exact H1|]. split; [exact H2|].
  destruct (C2_fetch_window America_New_York (mk_date 2024 6 12) H1 H2)
    as (monday & rs & re & Hget & _ & _ & Hrs & Hinst & _).
  exists (mk_date 2024 6 10), rs, re.
  split; [exact Hget|]. split; [reflexivity|]. split; [|exact Hinst].
  vm_compute in Hget. injection Hget as <- _. reflexivity.
Defined.

(** ** One component *)

Section Component.
Variables (range_start range_end : aware) (local_tz : tzinfo).

Let parse := parse_component range_start range_end local_tz.

(** The path of an event that has a start and is not marked free. *)
Lemma parse_component_busy (c : component) (raw_start : dt_value) :
  name c = "VEVENT" ->
  DTSTART c = Some raw_start ->
  marked (TRANSP c) "TRANSPARENT" = false ->
  marked (X_MICROSOFT_CDO_BUSYSTATUS c) "FREE" = false ->
  parse c
  = let* (start, end_) :=
      normalise local_tz raw_start (get (DTEND c) raw_start) in
    if outside start end_ range_start range_end then Ok None
    else Ok (Some (mk_event (isoformat start) (isoformat end_) "Busy")).
Proof.
  intros Hn Hs Ht Hb. unfold parse, parse_component.
  rewrite Hn, Hs, Ht, Hb.
  change (String.eqb "VEVENT" "VEVENT") with true.
  cbn [negb get]. now destruct (DTEND c).
Qed.

Lemma outside_false (s e : aware) :
  outside s e range_start range_end = false
  <-> overlaps s e range_start range_end.
Proof.
  unfold outside, overlaps. rewrite orb_false_iff, !Z.leb_gt. tauto.
Qed.

Lemma outside_true (s e : aware) :
  outside s e range_start range_end = true
  <-> ~ overlaps s e range_start range_end.
Proof.
  rewrite <- outside_false. destruct (outside _ _ _ _); split; congruence.
Qed.

Lemma parse_component_summary (c : component) (ev : event) :
  parse c = Ok (Some ev) -> ev_summary ev = "Busy".
Proof.
  unfold parse, parse_component.
  destruct (negb _); [discriminate|].
  destruct (DTSTART c) as [raw_start|]; [|discriminate].
  destruct (marked (TRANSP c) _); [discriminate|].
  destruct (marked (X_MICROSOFT_CDO_BUSYSTATUS c) _); [discriminate|].
  destruct (normalise _ _ _) as [[s e]|]; cbn [bind]; [|discriminate].
  destruct (outside _ _ _ _); [discriminate|].
  intros [= <-]. reflexivity.
Qed.

Lemma parse_components_summary (cal : list component) :
  forall evs, parse_components range_start range_end local_tz cal = Ok evs ->
              Forall (fun ev => ev_summary ev = "Busy") evs.
Proof.
  induction cal as [|c cal IH]; cbn [parse_components]; intros evs H.
  - injection H as <-. constructor.
  - destruct (parse_component _ _ _ c) as [o|] eqn:Hc; cbn in H;
      [|discriminate].
    destruct (parse_components _ _ _ cal) as [evs'|]; cbn in H;
      [|discriminate].
    injection H as <-. specialize (IH _ eq_refl).
    destruct o as [ev|]; [|exact IH].
    constructor; [|exact IH]. now apply (parse_component_summary c).
Qed.

Lemma parse_component_with_summary (t : option string) (c : component) :
  parse (with_summary t c) = parse c.
Proof. reflexivity. Qed.

Lemma parse_components_retitled (g : component -> option string)
      (cal : list component) :
  parse_components range_start range_end local_tz
                   (map (fun c => with_summary (g c) c) cal)
  = parse_components range_start range_end local_tz cal.
Proof.
  induction cal as [|c cal IH]; [reflexivity|].
  cbn [map parse_components]. rewrite IH.
  now rewrite (parse_component_with_summary (g c) c : parse_component _ _ _ _ = _).
Qed.

(** A component that appends nothing can be left out of the calendar. *)
Lemma parse_components_skip (c : component) (before after : list component) :
  parse c = Ok None ->
  parse_components range_start range_end local_tz (before ++ c :: after)
  = parse_components range_start range_end local_tz (before ++ after).
Proof.
  intros Hc. induction before as [|b before IH]; cbn [app parse_components].
  - unfold parse in Hc. rewrite Hc. cbn [bind].
    now destruct (parse_components _ _ _ after).
  - now rewrite IH.
Qed.

End Component.

(** ** Letter case *)

Lemma upper_lower_char (c : ascii) :
  Str.upper_char (Str.lower_char c) = Str.upper_char c.
Proof. destruct c as [[] [] [] [] [] [] [] []]; reflexivity. Qed.

Lemma equal_nocase_upper (s : string) :
  forall w, equal_nocase s w = true -> Str.upper s = Str.upper w.
Proof.
  induction s as [|x s IH]; intros [|y w] H; cbn in H; try discriminate.
  - reflexivity.
  - apply andb_true_iff in H as [Hc Hs]. apply Ascii.eqb_eq in Hc.
    cbn. rewrite (IH _ Hs). f_equal.
    now rewrite <- (upper_lower_char x), Hc, upper_lower_char.
Qed.

Lemma says_marked (p : option string) (word : string) :
  Str.truthy word = true ->
  says p word -> marked p (Str.upper word) = true.
Proof.
  intros Hw (s & -> & H). unfold marked.
  rewrite (equal_nocase_upper _ _ H), String.eqb_refl.
  destruct s; [|reflexivity]. destruct word; discriminate.
Qed.

(** ** The loop over the components: C3, C5, C7, C9 *)

(** C3.  An event that reaches the window test with the normalized
    interval [(s, e)] is appended exactly when [s] is before the end of the
    window and [e] after its start, and dropped exactly otherwise: an
    event across the start of the window is kept, one that ends at or
    before the start, or starts at or after the end, is dropped. *)
Theorem C3_overlap_filter
        (range_start range_end : aware) (local_tz : tzinfo) (c : component)
        (raw_start : dt_value) (s e : aware)
        (Hname : name c = "VEVENT")
        (Hstart : DTSTART c = Some raw_start)
        (Htransp : marked (TRANSP c) "TRANSPARENT" = false)
        (Hbusy : marked (X_MICROSOFT_CDO_BUSYSTATUS c) "FREE" = false)
        (Hnorm : normalise local_tz raw_start (get (DTEND c) raw_start)
                 = Ok (s, e)) :
  let emitted :=
    parse_component range_start range_end local_tz c
    = Ok (Some (mk_event (isoformat s) (isoformat e) "Busy")) in
  let dropped := parse_component range_start range_end local_tz c = Ok None in
  (emitted <-> instant s < instant range_end /\ instant range_start < instant e)
  /\ (dropped <->
      ~ (instant s < instant range_end /\ instant range_start < instant e))
  /\ (instant range_start <= instant range_end ->
      instant s < instant range_start -> instant range_start < instant e ->
      emitted)
  /\ (instant e <= instant range_start -> dropped)
  /\ (instant range_end <= instant s -> dropped).
Proof.
  cbv zeta.
  rewrite (parse_component_busy _ _ _ c raw_start Hname Hstart Htransp Hbusy).
  rewrite Hnorm. cbn [bind].
  pose proof (outside_false range_start range_end s e) as Hf.
  pose proof (outside_true range_start range_end s e) as Ht.
  unfold overlaps in Hf, Ht.
  destruct (outside s e range_start range_end).
  - assert (~ (instant s < instant range_end /\ instant range_start < instant e))
      as Hno by (now apply Ht).
    repeat split; try discriminate; try tauto; intros; exfalso; lia.
  - assert (instant s < instant range_end /\ instant range_start < instant e)
      as Hyes by (now apply Hf).
    repeat split; try discriminate; try tauto; intros; exfalso; lia.
Qed.

(** The event across the start of the sample window is kept. *)
Lemma C3_overlap_filter_witness :
  name Sample.straddling = "VEVENT" /\
  marked (TRANSP Sample.straddling) "TRANSPARENT" = false /\
  instant (Sample.range_start) <= instant (Sample.range_end) /\
  parse_component Sample.range_start Sample.range_end UTC Sample.straddling
  = Ok (Some (mk_event "2024-06-09T23:00:00+00:00"
                       "2024-06-10T01:00:00+00:00" "Busy")).
Proof.
  split; [reflexivity|]. split; [reflexivity|].
  split; [vm_compute; discriminate|].
  refine (proj1 (proj2 (proj2
    (C3_overlap_filter Sample.range_start Sample.range_end UTC
       Sample.straddling (Sample.at_utc 2024 6 9 23 0)
       (mk_aware (mk_datetime (mk_date 2024 6 9) 23 0 0) 0)
       (mk_aware (mk_datetime (mk_date 2024 6 10) 1 0 0) 0)
       eq_refl eq_refl eq_refl eq_refl _))) _ _ _).
  - vm_compute. reflexivity.
  - vm_compute. discriminate.
  - vm_compute. reflexivity.
  - vm_compute. reflexivity.
Defined.

(** C5.  Every event that [parse_ics_url] returns has the summary
    ["Busy"], and what it prints and returns does not depend on the titles
    of the events of the feed. *)
Theorem C5_summary_is_Busy
        (fd : string -> fetched) (url : string)
        (range_start range_end : aware) (local_tz : tzinfo) :
  (forall log evs,
      parse_ics_url fd url range_start range_end local_tz = (log, Ok evs) ->
      Forall (fun ev => ev_summary ev = "Busy") evs)
  /\ (forall g : component -> option string,
         parse_ics_url (fun u => retitle g (fd u)) url
                       range_start range_end local_tz
         = parse_ics_url fd url range_start range_end local_tz).
Proof.
  split.
  - intros log evs. unfold parse_ics_url.
    destruct (fd url) as [exc|cal].
    + cbn. intros [= _ <-]. constructor.
    + unfold lift. intros [= _ H].
      now apply (parse_components_summary range_start range_end local_tz cal).
  - intros g. unfold parse_ics_url.
    destruct (fd url) as [exc|cal]; cbn [retitle]; [reflexivity|].
    now rewrite parse_components_retitled.
Qed.

(** The sample feed: two events, both called Busy. *)
Lemma C5_summary_is_Busy_witness :
  parse_ics_url Sample.feed "http://c" Sample.range_start Sample.range_end UTC
  = ([], Ok [mk_event "2024-06-10T00:00:00+00:00"
                      "2024-06-11T00:00:00+00:00" "Busy";
             mk_event "2024-06-14T15:30:00+00:00"
                      "2024-06-14T15:30:00+00:00" "Busy"])
  /\ Forall (fun ev => ev_summary ev = "Busy")
            [mk_event "2024-06-10T00:00:00+00:00"
                      "2024-06-11T00:00:00+00:00" "Busy";
             mk_event "2024-06-14T15:30:00+00:00"
                      "2024-06-14T15:30:00+00:00" "Busy"].
Proof.
  assert (parse_ics_url Sample.feed "http://c" Sample.range_start
                        Sample.range_end UTC
          = ([], Ok [mk_event "2024-06-10T00:00:00+00:00"
                              "2024-06-11T00:00:00+00:00" "Busy";
                     mk_event "2024-06-14T15:30:00+00:00"
                              "2024-06-14T15:30:00+00:00" "Busy"])) as H
      by (vm_compute; reflexivity).
  split; [exact H|].
  exact (proj1 (C5_summary_is_Busy Sample.feed "http://c" Sample.range_start
                                   Sample.range_end UTC) _ _ H).
Defined.

(** C7.  An event whose TRANSP property is ["transparent"] up to case,
    or whose X-MICROSOFT-CDO-BUSYSTATUS property is ["free"] up to case,
    appends nothing, whatever its other properties, and the calendar gives
    the same events with or without it. *)
Theorem C7_free_time_skipped
        (range_start range_end : aware) (local_tz : tzinfo) (c : component)
        (Hfree : says (TRANSP c) "transparent"
                 \/ says (X_MICROSOFT_CDO_BUSYSTATUS c) "free") :
  parse_component range_start range_end local_tz c = Ok None
  /\ forall before after : list component,
      parse_components range_start range_end local_tz (before ++ c :: after)
      = parse_components range_start range_end local_tz (before ++ after).
Proof.
  assert (parse_component range_start range_end local_tz c = Ok None) as H.
  { unfold parse_component.
    destruct (negb _); [reflexivity|].
    destruct (DTSTART c) as [raw_start|]; [|reflexivity].
    destruct Hfree as [Ht|Hb].
    - apply says_marked in Ht; [|reflexivity].
      change (Str.upper "transparent") with "TRANSPARENT" in Ht.
      now rewrite Ht.
    - apply says_marked in Hb; [|reflexivity].
      change (Str.upper "free") with "FREE" in Hb.
      rewrite Hb. now destruct (marked (TRANSP c) _). }
  split; [exact H|].
  intros before after. now apply parse_components_skip.
Qed.

(** The lunch marked Transparent and the slot marked Free. *)
Lemma C7_free_time_skipped_witness :
  says (TRANSP Sample.lunch) "transparent" /\
  says (X_MICROSOFT_CDO_BUSYSTATUS Sample.slot) "free" /\
  parse_component Sample.range_start Sample.range_end UTC Sample.lunch = Ok None /\
  parse_component Sample.range_start Sample.range_end UTC Sample.slot = Ok None.
Proof.
  assert (says (TRANSP Sample.lunch) "transparent") as H1
      by (exists "Transparent"; split; reflexivity).
  assert (says (X_MICROSOFT_CDO_BUSYSTATUS Sample.slot) "free") as H2
      by (exists "Free"; split; reflexivity).
  split; [exact H1|]. split; [exact H2|]. split.
  - exact (proj1 (C7_free_time_skipped Sample.range_start Sample.range_end UTC
                                       Sample.lunch (or_introl H1))).
  - exact (proj1 (C7_free_time_skipped Sample.range_start Sample.range_end UTC
                                       Sample.slot (or_intror H2))).
Defined.

Lemma normalise_same (local_tz : tzinfo) (raw : dt_value) (s e : aware) :
  normalise local_tz raw raw = Ok (s, e) -> s = e.
Proof.
  unfold normalise. destruct raw as [d|t|a].
  - now intros [= <- <-].
  - cbn [attach bind].
    destruct (astimezone local_tz _) as [x|]; cbn [bind]; [|discriminate].
    now intros [= <- <-].
  - cbn [attach bind].
    destruct (astimezone local_tz a) as [x|]; cbn [bind]; [|discriminate].
    now intros [= <- <-].
Qed.

(** C9.  A component without DTSTART appends nothing.  A component with a
    DTSTART and no DTEND is treated as if its DTEND were its DTSTART: the
    normalized interval has equal ends, the event appended, if any, has
    equal start and end, and it is appended when the instant lies strictly
    inside the window. *)
Theorem C9_missing_start_or_end
        (range_start range_end : aware) (local_tz : tzinfo) (c : component) :
  (DTSTART c = None ->
   parse_component range_start range_end local_tz c = Ok None)
  /\ (forall raw_start,
         DTSTART c = Some raw_start -> DTEND c = None ->
         parse_component range_start range_end local_tz c
         = parse_component range_start range_end local_tz
                           (with_dtend (Some raw_start) c)
         /\ (forall s e, normalise local_tz raw_start raw_start = Ok (s, e) ->
                         s = e /\ instant e - instant s = 0)
         /\ (forall ev,
                parse_component range_start range_end local_tz c = Ok (Some ev) ->
                ev_start ev = ev_end ev)
         /\ (forall s e,
                name c = "VEVENT" ->
                marked (TRANSP c) "TRANSPARENT" = false ->
                marked (X_MICROSOFT_CDO_BUSYSTATUS c) "FREE" = false ->
                normalise local_tz raw_start raw_start = Ok (s, e) ->
                instant range_start < instant s < instant range_end ->
                parse_component range_start range_end local_tz c
                = Ok (Some (mk_event (isoformat s) (isoformat s) "Busy")))).
Proof.
  split.
  - intros H. unfold parse_component. rewrite H. now destruct (negb _).
  - intros raw_start Hs He.
    assert (forall s e, normalise local_tz raw_start raw_start = Ok (s, e) ->
                        s = e /\ instant e - instant s = 0) as Hzero.
    { intros s e H. apply normalise_same in H. subst e. split; [reflexivity|lia]. }
    split; [|split; [exact Hzero|split]].
    + unfold parse_component, with_dtend.
      cbn [name DTSTART DTEND TRANSP X_MICROSOFT_CDO_BUSYSTATUS].
      now rewrite Hs, He.
    + intros ev. unfold parse_component. rewrite Hs, He.
      destruct (negb _); [discriminate|].
      destruct (marked (TRANSP c) _); [discriminate|].
      destruct (marked (X_MICROSOFT_CDO_BUSYSTATUS c) _); [discriminate|].
      destruct (normalise _ _ _) as [[s e]|] eqn:Hn; cbn [bind]; [|discriminate].
      apply normalise_same in Hn. subst e.
      destruct (outside _ _ _ _); [discriminate|].
      now intros [= <-].
    + intros s e Hn Ht Hb Hnorm Hin.
      rewrite (parse_component_busy _ _ _ c raw_start Hn Hs Ht Hb).
      rewrite He. cbn [get]. rewrite Hnorm. cbn [bind].
      apply normalise_same in Hnorm. subst e.
      replace (outside s s range_start range_end) with false; [reflexivity|].
      symmetry. apply outside_false. unfold overlaps. lia.
Qed.

(** The call without an end: one instant, inside the window. *)
Lemma C9_missing_start_or_end_witness :
  DTSTART Sample.call = Some (Sample.at_utc 2024 6 14 15 30) /\
  DTEND Sample.call = None /\
  parse_component Sample.range_start Sample.range_end UTC Sample.call
  = parse_component Sample.range_start Sample.range_end UTC
                    (with_dtend (Some (Sample.at_utc 2024 6 14 15 30)) Sample.call)
  /\ parse_component Sample.range_start Sample.range_end UTC Sample.call
     = Ok (Some (mk_event "2024-06-14T15:30:00+00:00"
                          "2024-06-14T15:30:00+00:00" "Busy")).
Proof.
  split; [reflexivity|]. split; [reflexivity|].
  pose proof (proj2 (C9_missing_start_or_end Sample.range_start Sample.range_end
                       UTC Sample.call) _ eq_refl eq_refl) as (H1 & _ & _ & H4).
  split; [exact H1|].
  refine (H4 (mk_aware (mk_datetime (mk_date 2024 6 14) 15 30 0) 0) _
             eq_refl eq_refl eq_refl _ _).
  - vm_compute. reflexivity.
  - vm_compute. split; reflexivity.
Defined.

(** ** Normalization of the ends of an event: C8 *)

Lemma attach_instant (local_tz : tzinfo) (raw : dt_value) (a : aware) :
  attach local_tz raw = Ok a -> instant_of local_tz raw = Some (instant a).
Proof.
  destruct raw as [d|t|b]; cbn [attach instant_of]; [discriminate| |];
    now intros [= <-].
Qed.

Lemma astimezone_in_zone (tz : tzinfo) (a b : aware) :
  astimezone tz a = Ok b -> in_zone tz b (instant a).
Proof. intros H. now apply astimezone_inv in H. Qed.

(** C8.  An event whose start is a date becomes the interval from
    midnight of that date to midnight of the date of its end, both
    localized in the configured zone; the all-day event of 2024-06-10 in
    New York starts at 2024-06-10T00:00:00-04:00.  Otherwise each end is
    the instant it denotes (a naive one read in the configured zone)
    expressed in the configured zone, and the conversion succeeds when
    these instants and their wall-clock times lie in the years 1..9999. *)
Theorem C8_normalisation (local_tz : tzinfo) :
  (forall d raw_end,
      normalise local_tz (DDate d) raw_end
      = Ok (localize local_tz (mk_datetime d 0 0 0),
            localize local_tz (mk_datetime (date_fields raw_end) 0 0 0)))
  /\ (exists s e,
         normalise America_New_York (DDate (mk_date 2024 6 10))
                   (DDate (mk_date 2024 6 11)) = Ok (s, e)
         /\ isoformat s = "2024-06-10T00:00:00-04:00"
         /\ isoformat e = "2024-06-11T00:00:00-04:00")
  /\ (forall raw_start raw_end s e,
         (forall d, raw_start <> DDate d) ->
         normalise local_tz raw_start raw_end = Ok (s, e) ->
         exists i j,
           instant_of local_tz raw_start = Some i /\
           instant_of local_tz raw_end = Some j /\
           in_zone local_tz s i /\ in_zone local_tz e j)
  /\ (forall raw_start raw_end i j,
         instant_of local_tz raw_start = Some i ->
         instant_of local_tz raw_end = Some j ->
         representable i -> representable (i + utc_offset local_tz i) ->
         representable j -> representable (j + utc_offset local_tz j) ->
         exists s e, normalise local_tz raw_start raw_end = Ok (s, e)).
Proof.
  split; [|split; [|split]].
  - intros [y m d] raw_end. unfold normalise, day_start, midnight.
    cbn [date_fields year month day].
    now destruct (date_fields raw_end).
  - eexists _, _. split; [reflexivity|]. split; vm_compute; reflexivity.
  - intros raw_start raw_end s e Hnd H.
    assert (normalise local_tz raw_start raw_end
            = (let* a := attach local_tz raw_start in
               let* b := attach local_tz raw_end in
               let* a' := astimezone local_tz a in
               let* b' := astimezone local_tz b in
               Ok (a', b'))) as E.
    { destruct raw_start; [now elim (Hnd d)|reflexivity|reflexivity]. }
    rewrite E in H. clear E.
    destruct (attach local_tz raw_start) as [a|] eqn:Ha; cbn [bind] in H;
      [|discriminate].
    destruct (attach local_tz raw_end) as [b|] eqn:Hb; cbn [bind] in H;
      [|discriminate].
    destruct (astimezone local_tz a) as [a'|] eqn:Ha'; cbn [bind] in H;
      [|discriminate].
    destruct (astimezone local_tz b) as [b'|] eqn:Hb'; cbn [bind] in H;
      [|discriminate].
    injection H as <- <-.
    exists (instant a), (instant b).
    split; [now apply attach_instant|]. split; [now apply attach_instant|].
    split; now apply astimezone_in_zone.
  - intros raw_start raw_end i j Hi Hj Ri Ri' Rj Rj'.
    assert (exists a, attach local_tz raw_start = Ok a /\ instant a = i)
      as (a & Ha & Ia).
    { destruct raw_start as [d|t|a]; cbn [instant_of] in Hi; [discriminate| |];
        injection Hi as <-; eexists; split; reflexivity. }
    assert (exists b, attach local_tz raw_end = Ok b /\ instant b = j)
      as (b & Hb & Ib).
    { destruct raw_end as [d|t|b]; cbn [instant_of] in Hj; [discriminate| |];
        injection Hj as <-; eexists; split; reflexivity. }
    subst i j.
    destruct (astimezone_Ok local_tz a Ri Ri') as [a' Ha'].
    destruct (astimezone_Ok local_tz b Rj Rj') as [b' Hb'].
    exists a', b'. unfold normalise.
    destruct raw_start as [d|t|x]; [discriminate| |];
      rewrite Ha, Hb; cbn [bind]; rewrite Ha', Hb'; reflexivity.
Qed.

(** A lunch written without a zone and a call written in UTC, read in
    New York. *)
Lemma C8_normalisation_witness :
  (forall d, DNaive (mk_datetime (mk_date 2024 6 14) 12 0 0) <> DDate d) /\
  exists s e,
    normalise America_New_York
              (DNaive (mk_datetime (mk_date 2024 6 14) 12 0 0))
              (Sample.at_utc 2024 6 14 15 30) = Ok (s, e)
    /\ isoformat s = "2024-06-14T12:00:00-04:00"
    /\ isoformat e = "2024-06-14T11:30:00-04:00"
    /\ in_zone America_New_York e
               (instant (mk_aware (mk_datetime (mk_date 2024 6 14) 15 30 0) 0)).
Proof.
  split; [discriminate|].
  eexists _, _. split; [vm_compute; reflexivity|].
  split; [reflexivity|]. split; [reflexivity|].
  destruct (proj1 (proj2 (proj2 (C8_normalisation America_New_York)))
              (DNaive (mk_datetime (mk_date 2024 6 14) 12 0 0))
              (Sample.at_utc 2024 6 14 15 30) _ _
              ltac:(discriminate) ltac:(vm_compute; reflexivity))
    as (i & j & _ & Hj & _ & He).
  cbn [instant_of Sample.at_utc] in Hj. injection Hj as <-. exact He.
Defined.

(** ** A feed that cannot be read: C4 *)

Lemma prefix_length (n : nat) (s : string) :
  (String.length (Str.prefix n s) <= n)%nat.
Proof.
  unfold Str.prefix. revert s.
  induction n as [|n IH]; intros [|c s]; cbn; try lia.
  specialize (IH s). lia.
Qed.

Lemma prefix_is_prefix (n : nat) (s : string) :
  String.prefix (Str.prefix n s) s = true.
Proof.
  unfold Str.prefix. revert s.
  induction n as [|n IH]; intros [|c s]; cbn; try reflexivity.
  destruct (ascii_dec c c) as [_|ne]; [apply IH|now elim ne].
Qed.

Lemma parse_ics_url_failed (fd : string -> fetched) (url exc : string)
      (rs re : aware) (tz : tzinfo) :
  fd url = Failed exc ->
  parse_ics_url fd url rs re tz
  = ([Stderr ("  ⚠️  Could not fetch " +++ Str.prefix 70 url +++ ": " +++ exc)],
     Ok []).
Proof. intros H. unfold parse_ics_url. now rewrite H. Qed.

Lemma fetch_all_skip_failed (fd : string -> fetched) (url exc : string)
      (rs re : aware) (tz : tzinfo) (before after : list string) :
  fd url = Failed exc ->
  snd (fetch_all fd rs re tz (before ++ url :: after))
  = snd (fetch_all fd rs re tz (before ++ after)).
Proof.
  intros H. induction before as [|u before IH].
  - cbn [app]. rewrite fetch_all_cons, (parse_ics_url_failed _ _ _ _ _ _ H).
    cbn [snd bind app]. now destruct (snd (fetch_all fd rs re tz after)).
  - cbn [app]. now rewrite !fetch_all_cons, IH.
Qed.

(** C4.  When a feed cannot be retrieved or decoded, [parse_ics_url]
    prints one warning with at most the first 70 characters of the URL and
    returns no event; the loop fetches it once, reports 0 events and goes
    on, and the events of the run (or the exception that ends it) are
    those of the run without this feed.  When every feed fails the loop
    ends with no event. *)
Theorem C4_failed_feed
        (fd : string -> fetched) (url exc : string)
        (range_start range_end : aware) (local_tz : tzinfo)
        (Hfail : fd url = Failed exc) :
  let warning :=
    Stderr ("  ⚠️  Could not fetch " +++ Str.prefix 70 url +++ ": " +++ exc) in
  parse_ics_url fd url range_start range_end local_tz = ([warning], Ok [])
  /\ (String.length (Str.prefix 70 url) <= 70)%nat
  /\ String.prefix (Str.prefix 70 url) url = true
  /\ fetch_all fd range_start range_end local_tz [url]
     = ([Stdout ("Fetching: " +++ Str.prefix 70 url +++ "…"); warning;
         Stdout "  → 0 event(s) found"], Ok [])
  /\ (forall before after : list string,
         snd (fetch_all fd range_start range_end local_tz
                        (before ++ url :: after))
         = snd (fetch_all fd range_start range_end local_tz (before ++ after)))
  /\ (forall urls : list string,
         (forall u, In u urls -> exists e, fd u = Failed e) ->
         snd (fetch_all fd range_start range_end local_tz urls) = Ok []).
Proof.
  cbv zeta.
  pose proof (parse_ics_url_failed fd url exc range_start range_end local_tz
                                   Hfail) as Hp.
  split; [exact Hp|]. split; [apply prefix_length|].
  split; [apply prefix_is_prefix|]. split.
  { cbn [fetch_all]. rewrite Hp. reflexivity. }
  split.
  { intros before after. now apply (fetch_all_skip_failed fd url exc). }
  induction urls as [|u urls IH]; intros Hall; [reflexivity|].
  destruct (Hall u (or_introl eq_refl)) as [e He].
  rewrite (fetch_all_skip_failed fd u e _ _ _ [] urls He). cbn [app].
  apply IH. intros v Hv. apply Hall. now right.
Qed.

(** A feed that answers 404 between two readings of the sample feed. *)
Lemma C4_failed_feed_witness :
  Sample.feed "http://down" = Failed "404 Client Error" /\
  parse_ics_url Sample.feed "http://down" Sample.range_start Sample.range_end UTC
  = ([Stderr "  ⚠️  Could not fetch http://down: 404 Client Error"], Ok []) /\
  snd (fetch_all Sample.feed Sample.range_start Sample.range_end UTC
                 ["http://c"; "http://down"; "http://c"])
  = snd (fetch_all Sample.feed Sample.range_start Sample.range_end UTC
                   ["http://c"; "http://c"]).
Proof.
  split; [reflexivity|].
  pose proof (C4_failed_feed Sample.feed "http://down" "404 Client Error"
                Sample.range_start Sample.range_end UTC eq_refl)
    as (H1 & _ & _ & _ & H5 & _).
  split; [exact H1|]. exact (H5 ["http://c"] ["http://c"]).
Defined.

(** ** The feed locations: C6 *)

Lemma truthy_eqb (s : string) : Str.truthy s = negb (String.eqb s "").
Proof. now destruct s. Qed.

Lemma join_split (sep : ascii) (s : string) :
  join sep (Str.split sep s) = s.
Proof.
  induction s as [|c s IH]; [reflexivity|].
  cbn [Str.split]. destruct (Ascii.eqb c sep) eqn:E.
  - apply Ascii.eqb_eq in E. subst c.
    destruct (Str.split sep s) as [|p rest] eqn:Hs.
    + now destruct s; cbn in Hs; [|destruct (Ascii.eqb _ _), (Str.split _ _)].
    + cbn [join]. cbn [join] in IH. now rewrite IH.
  - destruct (Str.split sep s) as [|p rest] eqn:Hs.
    + now destruct s; cbn in Hs; [|destruct (Ascii.eqb _ _), (Str.split _ _)].
    + destruct rest as [|q rest]; cbn [join] in *; cbn [append]; now rewrite IH.
Qed.

Lemma split_no_sep (sep : ascii) (s : string) :
  Forall (fun p => all_chars (fun c => negb (Ascii.eqb c sep)) p = true)
         (Str.split sep s).
Proof.
  induction s as [|c s IH]; cbn [Str.split].
  - now constructor.
  - destruct (Ascii.eqb c sep) eqn:E.
    + now constructor.
    + destruct (Str.split sep s) as [|p rest]; constructor.
      * cbn. now rewrite E.
      * constructor.
      * inversion IH; subst. cbn [all_chars]. now rewrite E.
      * now inversion IH.
Qed.

Lemma lstrip_spec (s : string) :
  exists l, s = l +++ Str.lstrip s /\ all_chars Str.is_space l = true /\
            forall c, first_char (Str.lstrip s) = Some c -> Str.is_space c = false.
Proof.
  induction s as [|c s (l & E & Hl & Hf)].
  - exists "". repeat split. discriminate.
  - cbn [Str.lstrip]. destruct (Str.is_space c) eqn:Hc.
    + exists (String c l). cbn [append all_chars]. rewrite Hc, Hl, <- E.
      now repeat split.
    + exists "". repeat split. cbn. now intros ? [= <-].
Qed.

Lemma rstrip_spec (s : string) :
  exists r, s = Str.rstrip s +++ r /\ all_chars Str.is_space r = true /\
            forall c, last_char (Str.rstrip s) = Some c -> Str.is_space c = false.
Proof.
  induction s as [|c s (r & E & Hr & Hf)].
  - exists "". repeat split. discriminate.
  - cbn [Str.rstrip]. destruct (Str.rstrip s) as [|c' t] eqn:Ht.
    + cbn [append] in E. subst r.
      destruct (Str.is_space c) eqn:Hc.
      * exists (String c s). cbn [append all_chars]. rewrite Hc, Hr.
        repeat split. discriminate.
      * exists s. cbn [append]. repeat split; [exact Hr|].
        cbn. now intros ? [= <-].
    + exists r. split; [|split; [exact Hr|]].
      * cbn [append]. f_equal. exact E.
      * intros x Hx. apply Hf. exact Hx.
Qed.

Lemma rstrip_first_char (s : string) (c : ascii) :
  first_char (Str.rstrip s) = Some c -> first_char s = Some c.
Proof.
  destruct s as [|x s]; [discriminate|]. cbn [Str.rstrip].
  destruct (Str.rstrip s); [destruct (Str.is_space x); [discriminate|]|];
    exact (fun H => H).
Qed.

Lemma append_assoc (a b c : string) : (a +++ b) +++ c = a +++ b +++ c.
Proof. induction a as [|x a IH]; cbn [append]; [reflexivity|now rewrite IH]. Qed.

Lemma strip_trimmed (s : string) : trimmed s (Str.strip s).
Proof.
  unfold trimmed, Str.strip.
  destruct (lstrip_spec s) as (l & El & Hl & Hfirst).
  destruct (rstrip_spec (Str.lstrip s)) as (r & Er & Hr & Hlast).
  split; [|split].
  - exists l, r. split; [|split; assumption].
    rewrite El at 1. now rewrite Er at 1.
  - intros c Hc. apply Hfirst. now apply rstrip_first_char.
  - exact Hlast.
Qed.

Lemma filter_map_strip (l : list string) :
  map Str.strip (filter (fun u => Str.truthy (Str.strip u)) l)
  = filter (fun u => negb (String.eqb u "")) (map Str.strip l).
Proof.
  induction l as [|u l IH]; [reflexivity|].
  cbn [map filter]. rewrite <- truthy_eqb.
  destruct (Str.truthy (Str.strip u)); cbn [map]; now rewrite IH.
Qed.

(** C6, as amended.  When ICS_URLS is not blank, the feed locations are
    its comma-separated entries, each trimmed, without the empty ones, and
    the list of the configuration file is not consulted; otherwise they
    are the entries of the configuration file that are neither empty nor
    the placeholder, in their order. *)
Theorem C6_feed_locations (env_urls : string) (cfg : config) :
  resolve_ics_urls env_urls cfg = amended_ics_urls env_urls cfg
  /\ (Str.strip env_urls <> "" ->
      forall cfg', resolve_ics_urls env_urls cfg' = resolve_ics_urls env_urls cfg)
  /\ join "," (Str.split "," env_urls) = env_urls
  /\ Forall (fun p => all_chars (fun c => negb (Ascii.eqb c ",")) p = true)
            (Str.split "," env_urls)
  /\ (forall u, trimmed u (Str.strip u))
  /\ (forall u, In u (resolve_ics_urls "" cfg) <->
                In u (get (cfg_icsUrls cfg) []) /\ u <> "" /\ u <> PLACEHOLDER)
  /\ resolve_ics_urls "http://a,http://b"
                      (mk_config None None None None None (Some ["http://c"]))
     = ["http://a"; "http://b"].
Proof.
  split; [|split; [|split; [|split; [|split; [|split]]]]].
  - unfold resolve_ics_urls, amended_ics_urls.
    rewrite truthy_eqb. destruct (String.eqb (Str.strip env_urls) ""); cbn [negb].
    + apply filter_ext. intros u. now rewrite truthy_eqb.
    + apply filter_map_strip.
  - intros Hne cfg'. unfold resolve_ics_urls.
    destruct (Str.strip env_urls); [now elim Hne|reflexivity].
  - apply join_split.
  - apply split_no_sep.
  - apply strip_trimmed.
  - intros u. unfold resolve_ics_urls. cbn [Str.strip Str.lstrip Str.rstrip Str.truthy].
    rewrite filter_In, andb_true_iff, negb_true_iff, String.eqb_neq.
    rewrite truthy_eqb, negb_true_iff, String.eqb_neq. tauto.
  - reflexivity.
Qed.

(** A configuration file with an empty entry: the script drops it, the
    claim as worded keeps it. *)
Lemma C6_counterexample :
  resolve_ics_urls "" Sample.cfg = ["http://c"]
  /\ claimed_ics_urls "" Sample.cfg = [""; "http://c"]
  /\ resolve_ics_urls "" Sample.cfg <> claimed_ics_urls "" Sample.cfg.
Proof. split; [reflexivity|]. split; [reflexivity|]. discriminate. Qed.

Lemma C6_feed_locations_witness :
  Str.strip " http://a , ,http://b" <> "" /\
  resolve_ics_urls " http://a , ,http://b" Sample.cfg = ["http://a"; "http://b"] /\
  forall cfg', resolve_ics_urls " http://a , ,http://b" cfg'
               = resolve_ics_urls " http://a , ,http://b" Sample.cfg.
Proof.
  split; [discriminate|]. split; [reflexivity|].
  exact (proj1 (proj2 (C6_feed_locations " http://a , ,http://b" Sample.cfg))
               ltac:(discriminate)).
Defined.

(** ** The zone of the run: C1, C10 *)

Lemma main_with_config (w : world) (cfg : config) :
  config_file w = Some cfg ->
  main w = (local_tz <- resolve_timezone (tzdb w) (get (cfg_timezone cfg) "UTC") ;;
            run w cfg (get (cfg_timezone cfg) "UTC") local_tz).
Proof. intros H. unfold main. now rewrite H. Qed.

Lemma timezone_UTC (db : string -> option tzinfo) :
  Pytz.timezone db "UTC" = Some UTC.
Proof. reflexivity. Qed.

Lemma timezone_unknown (db : string -> option tzinfo) (tz_name : string) :
  Pytz.timezone db tz_name = None -> Str.upper tz_name <> "UTC".
Proof.
  unfold Pytz.timezone. intros H E. rewrite E in H. discriminate.
Qed.

Lemma Forall_bindM {A B : Type} (P : out_line -> Prop) (m : M A) (k : A -> M B) :
  Forall P (fst m) ->
  (forall a, snd m = Ok a -> Forall P (fst (k a))) ->
  Forall P (fst (bindM m k)).
Proof.
  destruct m as [l [a|e]]; cbn [fst snd bindM]; intros Hl Hk; [|exact Hl].
  specialize (Hk a eq_refl). destruct (k a) as [l' r]. cbn [fst] in *.
  apply Forall_app. now split.
Qed.

Lemma Forall_print (P : out_line -> Prop) (l : out_line) :
  P l -> Forall P (fst (print l)).
Proof. intros H. cbn. now constructor. Qed.

(** What the loop prints: progress, and a warning for a feed that
    failed. *)
Lemma parse_ics_url_log (fd : string -> fetched) (url : string)
      (rs re : aware) (tz : tzinfo) :
  Forall (fun l => progress l \/ fetch_warning l)
         (fst (parse_ics_url fd url rs re tz)).
Proof.
  unfold parse_ics_url. destruct (fd url) as [exc|cal]; [|constructor].
  apply Forall_bindM; [|constructor].
  apply Forall_print. right. now eexists _, _.
Qed.

Lemma fetch_all_log (fd : string -> fetched) (rs re : aware) (tz : tzinfo)
      (urls : list string) :
  Forall (fun l => progress l \/ fetch_warning l)
         (fst (fetch_all fd rs re tz urls)).
Proof.
  induction urls as [|url urls IH]; [constructor|].
  cbn [fetch_all].
  apply Forall_bindM; [apply Forall_print; left; eexists; reflexivity|].
  intros _ _. apply Forall_bindM; [apply parse_ics_url_log|].
  intros evts _.
  apply Forall_bindM; [apply Forall_print; left; eexists; reflexivity|].
  intros _ _. apply Forall_bindM; [exact IH|]. constructor.
Qed.

Lemma run_log (w : world) (cfg : config) (tz_name : string) (tz : tzinfo) :
  Forall (fun l => progress l \/ fetch_warning l) (fst (run w cfg tz_name tz)).
Proof.
  unfold run. cbv zeta.
  apply Forall_bindM; [constructor|]. intros [rs re] _.
  apply Forall_bindM; [apply fetch_all_log|]. intros evs _.
  apply Forall_bindM; [constructor|]. intros now _.
  apply Forall_bindM; [apply Forall_print; left; eexists; reflexivity|].
  constructor.
Qed.

Lemma not_timezone_warning (l : out_line) :
  progress l \/ fetch_warning l -> ~ timezone_warning l.
Proof.
  intros [[s ->]|(url & exc & ->)] [n H]; [discriminate|].
  cbn [append] in H. discriminate.
Qed.

(** C1.  What the script does with a name that [pytz] does not know: it
    prints the warning, runs with the zone UTC, and writes the unknown name,
    not UTC, in the [timezone] field of the document. *)
Theorem C1_unknown_timezone_is_written
        (w : world) (cfg : config) (tz_name : string)
        (Hcfg : config_file w = Some cfg)
        (Hname : cfg_timezone cfg = Some tz_name)
        (Hunknown : Pytz.timezone (tzdb w) tz_name = None) :
  main w
  = (Stderr ("Unknown timezone '" +++ tz_name +++ "'. Using UTC.")
       :: fst (run w cfg tz_name UTC),
     snd (run w cfg tz_name UTC))
  /\ (forall log out,
         main w = (log, Ok out) ->
         timezone_field out = tz_name /\ Str.upper tz_name <> "UTC"
         /\ exists now, fromutc UTC (of_seconds (utcnow w)) = Ok now
                        /\ lastUpdated out = isoformat now).
Proof.
  assert (main w
          = (Stderr ("Unknown timezone '" +++ tz_name +++ "'. Using UTC.")
               :: fst (run w cfg tz_name UTC),
             snd (run w cfg tz_name UTC))) as E.
  { rewrite (main_with_config w cfg Hcfg), Hname. cbn [get].
    unfold resolve_timezone. rewrite Hunknown.
    cbn [bindM print ret app].
    now destruct (run w cfg tz_name UTC) as [l [out|e]]. }
  split; [exact E|].
  intros log out H. rewrite E in H.
  destruct (run w cfg tz_name UTC) as [l r] eqn:Hrun.
  cbn [fst snd] in H. injection H as _ ->.
  apply run_inv in Hrun as (rs & re & now & _ & _ & Hnow & Hlast & Htz).
  split; [exact Htz|]. split; [now apply (timezone_unknown (tzdb w))|]. eauto.
Qed.

(** The run of the sample world, configured for the zone Mars/Phobos. *)
Lemma C1_unknown_timezone_is_written_witness :
  config_file Sample.w = Some Sample.cfg /\
  cfg_timezone Sample.cfg = Some "Mars/Phobos" /\
  Pytz.timezone (tzdb Sample.w) "Mars/Phobos" = None /\
  exists log out,
    main Sample.w
    = (Stderr "Unknown timezone 'Mars/Phobos'. Using UTC." :: log, Ok out)
    /\ timezone_field out = "Mars/Phobos"
    /\ lastUpdated out = "2024-06-12T09:00:05+00:00".
Proof.
  split; [reflexivity|]. split; [reflexivity|]. split; [reflexivity|].
  destruct (C1_unknown_timezone_is_written Sample.w Sample.cfg "Mars/Phobos"
              eq_refl eq_refl eq_refl) as [E H].
  destruct (run Sample.w Sample.cfg "Mars/Phobos" UTC) as [l r] eqn:Hrun.
  assert (exists out, r = Ok out /\ lastUpdated out = "2024-06-12T09:00:05+00:00")
    as (out & -> & Hl).
  { vm_compute in Hrun. injection Hrun as _ <-. eexists. split; reflexivity. }
  cbn [fst snd] in E. exists l, out. split; [exact E|].
  split; [|exact Hl]. exact (proj1 (H _ _ E)).
Defined.

(** C10.  Without a [timezone] key the run is the run with the name
    ["UTC"] and the zone UTC: [pytz] knows that name whatever its database
    holds, no warning about the zone is printed, and the document says
    ["UTC"]. *)
Theorem C10_default_timezone
        (w : world) (cfg : config)
        (Hcfg : config_file w = Some cfg)
        (Hnone : cfg_timezone cfg = None) :
  main w = run w cfg "UTC" UTC
  /\ resolve_timezone (tzdb w) "UTC" = ([], Ok UTC)
  /\ Forall (fun l => ~ timezone_warning l) (fst (main w))
  /\ (forall log out, main w = (log, Ok out) -> timezone_field out = "UTC").
Proof.
  assert (main w = run w cfg "UTC" UTC) as E.
  { rewrite (main_with_config w cfg Hcfg), Hnone. cbn [get].
    unfold resolve_timezone. rewrite timezone_UTC. unfold ret.
    cbn [bindM]. now destruct (run w cfg "UTC" UTC) as [l r]. }
  split; [exact E|]. split; [reflexivity|]. split.
  - rewrite E. eapply Forall_impl; [|apply run_log].
    intros l. apply not_timezone_warning.
  - intros log out H. rewrite E in H.
    now apply run_inv in H as (rs & re & now & _ & _ & _ & _ & Htz).
Qed.

(** The sample world without the [timezone] key. *)
Lemma C10_default_timezone_witness :
  let cfg := mk_config None None None None None (Some ["http://c"]) in
  let w := mk_world (Some cfg) None (today Sample.w) (utcnow Sample.w)
                    Sample.zones Sample.feed in
  config_file w = Some cfg /\ cfg_timezone cfg = None /\
  main w = run w cfg "UTC" UTC /\
  exists log out, main w = (log, Ok out) /\ timezone_field out = "UTC"
                  /\ lastUpdated out = "2024-06-12T09:00:05+00:00".
Proof.
  cbv zeta. split; [reflexivity|]. split; [reflexivity|].
  destruct (C10_default_timezone
              (mk_world (Some (mk_config None None None None None
                                         (Some ["http://c"])))
                        None (today Sample.w) (utcnow Sample.w)
                        Sample.zones Sample.feed)
              _ eq_refl eq_refl) as (E & _ & _ & H).
  split; [exact E|].
  match goal with |- exists log out, ?m = _ /\ _ => destruct m as [l r] eqn:Hm end.
  assert (exists out, r = Ok out /\ lastUpdated out = "2024-06-12T09:00:05+00:00")
    as (out & -> & Hl).
  { vm_compute in Hm. injection Hm as _ <-. eexists. split; reflexivity. }
  exists l, out. split; [reflexivity|]. split; [|exact Hl].
  exact (H _ _ eq_refl).
Defined.

(** * Further properties of the script *)

(** ** [get_fetch_range] *)

Lemma get_fetch_range_inv (tz : tzinfo) (today_ : date) (rs re : aware) :
  get_fetch_range tz today_ = Ok (rs, re) ->
  let o := toordinal today_ - weekday today_ in
  0 < o /\ o + 35 <= MAXORDINAL /\
  rs = localize tz (mk_datetime (fromordinal o) 0 0 0) /\
  re = mk_aware (mk_datetime (fromordinal (o + 35)) 0 0 0) (utcoffset rs).
Proof.
  cbv zeta. unfold get_fetch_range, date_sub_days. cbv zeta.
  destruct (0 <? _) eqn:H1; cbn [andb]; [|discriminate].
  destruct (_ <=? MAXORDINAL) eqn:H2; cbn [bind]; [|discriminate].
  set (o := toordinal today_ - weekday today_) in *.
  set (monday := fromordinal o).
  replace (midnight (year monday) (month monday) (day monday))
    with (mk_datetime monday 0 0 0) by (unfold midnight; now destruct monday).
  unfold aware_add.
  destruct (add_seconds _ _) as [w|e] eqn:Hw; cbn [bind]; [|discriminate].
  intros [= <- <-].
  apply add_seconds_inv in Hw as [-> Hrep].
  cbn [wall localize] in *.
  assert (to_seconds (mk_datetime monday 0 0 0) + 5 * 7 * 86400
          = (o + 35) * 86400) as E.
  { unfold to_seconds. cbn [dt_date hour minute second]. unfold monday.
    rewrite toordinal_fromordinal. lia. }
  rewrite E in *. unfold representable in Hrep.
  rewrite Z.div_mul in Hrep by lia.
  apply Z.ltb_lt in H1.
  split; [exact H1|]. split; [lia|]. split; [reflexivity|].
  f_equal. unfold of_seconds. cbv zeta.
  rewrite Z.div_mul, Z.mod_mul by lia. reflexivity.
Qed.

(** X1.  The window that [get_fetch_range] returns starts at 00:00:00 of
    a Monday and ends, on the wall clock, at 00:00:00 of the Monday five
    weeks later; the day of the run begins within the first seven days of
    the window, and the start is strictly before the end. *)
Theorem X1_window_shape (tz : tzinfo) (today_ : date) (rs re : aware)
        (Hget : get_fetch_range tz today_ = Ok (rs, re)) :
  weekday (dt_date (wall rs)) = 0
  /\ weekday (dt_date (wall re)) = 0
  /\ toordinal (dt_date (wall re)) = toordinal (dt_date (wall rs)) + 35
  /\ (hour (wall rs), minute (wall rs), second (wall rs)) = (0, 0, 0)
  /\ (hour (wall re), minute (wall re), second (wall re)) = (0, 0, 0)
  /\ to_seconds (wall rs) <= toordinal today_ * 86400
     < to_seconds (wall rs) + 7 * 86400
  /\ toordinal today_ * 86400 + 28 * 86400 < to_seconds (wall re)
  /\ instant rs < instant re.
Proof.
  pose proof (weekday_range today_) as Hwd.
  apply get_fetch_range_inv in Hget as (Ho & Hmax & -> & ->).
  set (o := toordinal today_ - weekday today_) in *.
  assert ((o + 6) mod 7 = 0) as Hm.
  { unfold o, weekday. apply monday_ordinal. }
  unfold instant, to_seconds, weekday.
  cbn [wall localize dt_date hour minute second utcoffset].
  rewrite !toordinal_fromordinal.
  split; [exact Hm|]. split.
  { replace (o + 35 + 6) with (o + 6 + 5 * 7) by lia.
    now rewrite Z.mod_add by lia. }
  repeat split; lia.
Qed.

Lemma X1_window_shape_witness :
  get_fetch_range America_New_York (mk_date 2024 10 12)
  = Ok (mk_aware (midnight 2024 10 7) (-14400),
        mk_aware (midnight 2024 11 11) (-14400))
  /\ weekday (mk_date 2024 11 11) = 0
  /\ instant (mk_aware (midnight 2024 10 7) (-14400))
     < instant (mk_aware (midnight 2024 11 11) (-14400)).
Proof.
  assert (get_fetch_range America_New_York (mk_date 2024 10 12)
          = Ok (mk_aware (midnight 2024 10 7) (-14400),
                mk_aware (midnight 2024 11 11) (-14400))) as H
      by (vm_compute; reflexivity).
  split; [exact H|].
  pose proof (X1_window_shape _ _ _ _ H) as (_ & H2 & _ & _ & _ & _ & _ & H8).
  split; [exact H2|exact H8].
Defined.

(** X2.  The window does not change during a week: on each of the seven
    days from a Monday on, [get_fetch_range] returns what it returns on that
    Monday. *)
Theorem X2_window_same_all_week (tz : tzinfo) (monday : date) (k : Z)
        (Hmon : weekday monday = 0) (Hk : 0 <= k < 7) :
  get_fetch_range tz (fromordinal (toordinal monday + k))
  = get_fetch_range tz monday.
Proof.
  unfold get_fetch_range, date_sub_days, weekday in *.
  rewrite toordinal_fromordinal. rewrite Hmon.
  replace ((toordinal monday + k + 6) mod 7) with k.
  - cbv zeta. now replace (toordinal monday + k - k) with (toordinal monday - 0) by lia.
  - replace (toordinal monday + k + 6) with (k + (toordinal monday + 6)) by lia.
    rewrite <- Zplus_mod_idemp_r, Hmon, Z.add_0_r. symmetry.
    apply Z.mod_small. exact Hk.
Qed.

Lemma X2_window_same_all_week_witness :
  weekday (mk_date 2024 6 10) = 0 /\ 0 <= 6 < 7 /\
  fromordinal (toordinal (mk_date 2024 6 10) + 6) = mk_date 2024 6 16 /\
  get_fetch_range UTC (mk_date 2024 6 16) = get_fetch_range UTC (mk_date 2024 6 10).
Proof.
  assert (0 <= 6 < 7) as Hk by lia.
  split; [reflexivity|]. split; [exact Hk|]. split; [reflexivity|].
  exact (X2_window_same_all_week UTC (mk_date 2024 6 10) 6 eq_refl Hk).
Defined.

(** ** [parse_ics_url] *)

Section Parse.
Variables (range_start range_end : aware) (local_tz : tzinfo).

Let parse_one := parse_component range_start range_end local_tz.
Let parse_all := parse_components range_start range_end local_tz.

Lemma parse_component_not_vevent (c : component) :
  is_vevent c = false -> parse_one c = Ok None.
Proof.
  unfold is_vevent, parse_one, parse_component. now intros ->.
Qed.

(** X3.  Only the components named VEVENT count: the calendar and the
    list of its VEVENT components give the same result, events or
    exception. *)
Theorem X3_only_vevents (cal : list component) :
  parse_components range_start range_end local_tz cal
  = parse_components range_start range_end local_tz (filter is_vevent cal).
Proof.
  induction cal as [|c cal IH]; [reflexivity|].
  cbn [filter]. destruct (is_vevent c) eqn:Hc.
  - cbn [parse_components]. now rewrite IH.
  - rewrite <- IH.
    exact (parse_components_skip range_start range_end local_tz c [] cal
             (parse_component_not_vevent c Hc)).
Qed.



Lemma parse_component_mixed (c : component) :
  mixed_ends c -> parse_one c = Raise AttributeError.
Proof.
  intros (Hn & Ht & Hb & (raw & Hs & Hnd) & (d & He)).
  unfold parse_one.
  rewrite (parse_component_busy _ _ _ c raw Hn Hs Ht Hb), He. cbn [get].
  destruct raw as [d'|t|a]; [now elim (Hnd d')|reflexivity|reflexivity].
Qed.

Lemma parse_components_raise (c : component) (e : exn)
      (before after : list component) (evs : list event) :
  parse_one c = Raise e ->
  parse_all before = Ok evs ->
  parse_all (before ++ c :: after) = Raise e.
Proof.
  unfold parse_one, parse_all. intros Hc. revert evs.
  induction before as [|b before IH]; intros evs Hb; cbn [app parse_components].
  - now rewrite Hc.
  - cbn [parse_components] in Hb.
    destruct (parse_component _ _ _ b) as [o|]; cbn [bind] in *; [|discriminate].
    destruct (parse_components _ _ _ before) as [evs'|]; [|discriminate].
    now rewrite (IH _ eq_refl).
Qed.



End Parse.

Lemma X3_only_vevents_witness :
  parse_components Sample.range_start Sample.range_end UTC
                   [Sample_vtimezone; Sample.dentist; Sample_vtimezone]
  = parse_components Sample.range_start Sample.range_end UTC [Sample.dentist].
Proof.
  exact (X3_only_vevents Sample.range_start Sample.range_end UTC
                         [Sample_vtimezone; Sample.dentist; Sample_vtimezone]).
Defined.



(** ** The loop over the feeds and [main] *)

Lemma run_Ok_inv (w : world) (cfg : config) (tz_name : string) (tz : tzinfo)
      (log : list out_line) (out : schedule) :
  run w cfg tz_name tz = (log, Ok out) ->
  let urls := resolve_ics_urls (get (ICS_URLS w) "") cfg in
  exists rs re l evs now,
    get_fetch_range tz (today w) = Ok (rs, re) /\
    fetch_all (feed w) rs re tz urls = (l, Ok evs) /\
    fromutc tz (of_seconds (utcnow w)) = Ok now /\
    out = mk_schedule (isoformat now) tz_name
                      (get (cfg_ownerName cfg) "Nikki")
                      (get (cfg_weeklyProjectHours cfg) 20)
                      (get (cfg_workdayStart cfg) 8)
                      (get (cfg_workdayEnd cfg) 19)
                      (0 <? List.length urls)%nat evs.
Proof.
  unfold run. cbv zeta. intros H.
  apply bindM_Ok in H as (l1 & [rs re] & l2 & H1 & H & _).
  apply lift_Ok in H1 as [H1 _].
  apply bindM_Ok in H as (l3 & evs & l4 & H2 & H & _).
  apply bindM_Ok in H as (l5 & now & l6 & H3 & H & _).
  apply lift_Ok in H3 as [H3 _].
  apply bindM_Ok in H as (l7 & [] & l8 & _ & H & _).
  unfold ret in H. injection H as _ <-.
  exists rs, re, l3, evs, now. auto.
Qed.

Lemma fromutc_now (tz : tzinfo) (u : Z) (now : aware) :
  fromutc tz (of_seconds u) = Ok now -> in_zone tz now u.
Proof.
  intros H. apply fromutc_inv in H as (Ho & Hw & Hi).
  rewrite to_seconds_of_seconds in *. unfold in_zone. auto.
Qed.

Lemma get_fetch_range_Ok (tz : tzinfo) (today_ : date) :
  7 <= toordinal today_ -> toordinal today_ + 35 <= MAXORDINAL ->
  exists rs re, get_fetch_range tz today_ = Ok (rs, re).
Proof.
  intros Hlo Hhi. pose proof (weekday_range today_) as Hwd.
  unfold get_fetch_range, date_sub_days. cbv zeta.
  set (o := toordinal today_ - weekday today_).
  replace (0 <? o) with true by (symmetry; apply Z.ltb_lt; lia).
  replace (o <=? MAXORDINAL) with true by (symmetry; apply Z.leb_le; lia).
  cbn [andb bind]. unfold aware_add. rewrite add_seconds_Ok.
  - cbn [bind]. eauto.
  - cbn [wall localize]. unfold to_seconds, midnight.
    cbn [dt_date hour minute second].
    replace (mk_date (year (fromordinal o)) (month (fromordinal o))
                     (day (fromordinal o)))
      with (fromordinal o) by (now destruct (fromordinal o)).
    rewrite toordinal_fromordinal. unfold representable.
    replace (o * 86400 + 0 * 3600 + 0 * 60 + 0 + 5 * 7 * 86400)
      with ((o + 35) * 86400) by lia.
    rewrite Z.div_mul by lia. lia.
Qed.

(** X7.  The events of a list of feeds are those of its first part
    followed by those of the rest, and an exception in either part is the
    exception of the whole. *)
Theorem X7_feeds_concatenate (fd : string -> fetched) (rs re : aware)
        (tz : tzinfo) (urls1 urls2 : list string) :
  snd (fetch_all fd rs re tz (urls1 ++ urls2))
  = let* evs1 := snd (fetch_all fd rs re tz urls1) in
    let* evs2 := snd (fetch_all fd rs re tz urls2) in
    Ok (evs1 ++ evs2).
Proof.
  induction urls1 as [|u urls1 IH]; cbn [app].
  - cbn [fetch_all ret snd bind]. now destruct (snd (fetch_all fd rs re tz urls2)).
  - rewrite !fetch_all_cons, IH.
    destruct (snd (parse_ics_url fd u rs re tz)) as [e0|]; cbn [bind];
      [|reflexivity].
    destruct (snd (fetch_all fd rs re tz urls1)) as [e1|]; cbn [bind];
      [|reflexivity].
    destruct (snd (fetch_all fd rs re tz urls2)) as [e2|]; cbn [bind];
      [|reflexivity].
    now rewrite app_assoc.
Qed.

(** X5.  An event with a date-time as DTSTART and a date as DTEND raises
    AttributeError; the exception is not caught: the feed that holds the
    event gives no event, the feeds after it are not fetched, and the run
    writes no document. *)
Theorem X5_mixed_ends_abort
        (w : world) (cfg : config) (tz_name : string) (tz : tzinfo)
        (rs re : aware) (url : string) (rest : list string)
        (before after : list component) (c : component) (evs0 : list event)
        (Hrange : get_fetch_range tz (today w) = Ok (rs, re))
        (Hurls : resolve_ics_urls (get (ICS_URLS w) "") cfg = url :: rest)
        (Hfeed : feed w url = Decoded (before ++ c :: after))
        (Hbefore : parse_components rs re tz before = Ok evs0)
        (Hmixed : mixed_ends c) :
  parse_component rs re tz c = Raise AttributeError
  /\ parse_ics_url (feed w) url rs re tz = ([], Raise AttributeError)
  /\ fetch_all (feed w) rs re tz (url :: rest)
     = ([Stdout ("Fetching: " +++ Str.prefix 70 url +++ "…")],
        Raise AttributeError)
  /\ run w cfg tz_name tz
     = ([Stdout ("Fetching: " +++ Str.prefix 70 url +++ "…")],
        Raise AttributeError).
Proof.
  pose proof (parse_component_mixed rs re tz c Hmixed) as Hc.
  assert (parse_ics_url (feed w) url rs re tz = ([], Raise AttributeError)) as Hp.
  { unfold parse_ics_url. rewrite Hfeed. unfold lift. f_equal.
    exact (parse_components_raise rs re tz c _ before after evs0 Hc Hbefore). }
  assert (fetch_all (feed w) rs re tz (url :: rest)
          = ([Stdout ("Fetching: " +++ Str.prefix 70 url +++ "…")],
             Raise AttributeError)) as Hf.
  { cbn [fetch_all]. rewrite Hp. reflexivity. }
  split; [exact Hc|]. split; [exact Hp|]. split; [exact Hf|].
  unfold run. cbv zeta. rewrite Hrange, Hurls. cbn [lift bindM].
  rewrite Hf. reflexivity.
Qed.

(** X8.  In the document of a run, [configured] tells whether there is at
    least one feed location, whatever the feeds answered: it is true even
    when every feed failed and [events] is empty. *)
Theorem X8_configured_flag
        (w : world) (cfg : config) (tz_name : string) (tz : tzinfo)
        (log : list out_line) (out : schedule)
        (Hrun : run w cfg tz_name tz = (log, Ok out)) :
  (configured out = true <-> resolve_ics_urls (get (ICS_URLS w) "") cfg <> [])
  /\ ((forall u, exists e, feed w u = Failed e) -> events out = []).
Proof.
  apply run_Ok_inv in Hrun as (rs & re & l & evs & now & _ & Hf & _ & ->).
  cbn [configured events]. split.
  - destruct (resolve_ics_urls _ _); cbn; split; try discriminate; congruence.
  - intros Hall. clear - Hf Hall.
    revert l evs Hf.
    induction (resolve_ics_urls (get (ICS_URLS w) "") cfg) as [|u urls IH];
      intros l evs Hf.
    + cbn in Hf. now injection Hf as _ <-.
    + destruct (Hall u) as [e He].
      cbn [fetch_all] in Hf. rewrite (parse_ics_url_failed _ _ _ _ _ _ He) in Hf.
      destruct (fetch_all (feed w) rs re tz urls) as [l' [evs'|e']] eqn:Hrest;
        cbn in Hf; [|discriminate].
      injection Hf as _ <-. now apply (IH l').
Qed.

(** X11.  [lastUpdated] is the current instant expressed in the zone of
    the run. *)
Theorem X11_last_updated
        (w : world) (cfg : config) (tz_name : string) (tz : tzinfo)
        (log : list out_line) (out : schedule)
        (Hrun : run w cfg tz_name tz = (log, Ok out)) :
  exists now, lastUpdated out = isoformat now /\ in_zone tz now (utcnow w).
Proof.
  apply run_Ok_inv in Hrun as (rs & re & l & evs & now & _ & _ & Hnow & ->).
  exists now. split; [reflexivity|]. now apply fromutc_now.
Qed.

(** X10.  With no feed location the run fetches nothing and writes a
    document with [configured] false, no event and the defaults for the
    keys the configuration file lacks. *)
Theorem X10_nothing_configured
        (w : world) (cfg : config) (tz_name : string) (tz : tzinfo)
        (Hurls : resolve_ics_urls (get (ICS_URLS w) "") cfg = [])
        (Hlo : 7 <= toordinal (today w))
        (Hhi : toordinal (today w) + 35 <= MAXORDINAL)
        (Hnow : representable (utcnow w + utc_offset tz (utcnow w))) :
  exists now,
    in_zone tz now (utcnow w) /\
    run w cfg tz_name tz
    = ([Stdout (String (ascii_of_nat 10)
                       "✅ schedule.json written (0 total event(s))")],
       Ok (mk_schedule (isoformat now) tz_name
                       (get (cfg_ownerName cfg) "Nikki")
                       (get (cfg_weeklyProjectHours cfg) 20)
                       (get (cfg_workdayStart cfg) 8)
                       (get (cfg_workdayEnd cfg) 19)
                       false [])).
Proof.
  destruct (get_fetch_range_Ok tz (today w) Hlo Hhi) as (rs & re & Hr).
  destruct (fromutc_Ok tz (of_seconds (utcnow w))) as [now Hn].
  { now rewrite to_seconds_of_seconds. }
  exists now. split; [now apply fromutc_now|].
  unfold run. cbv zeta. rewrite Hr, Hurls, Hn. reflexivity.
Qed.

(** ** Exceptions *)












(** ** The feed locations again *)

Lemma all_chars_lstrip (f : ascii -> bool) (s : string) :
  all_chars f s = true -> all_chars f (Str.lstrip s) = true.
Proof.
  induction s as [|c s IH]; [reflexivity|].
  cbn [Str.lstrip]. destruct (Str.is_space c); [|exact (fun H => H)].
  cbn [all_chars]. intros H. apply andb_true_iff in H as [_ H]. now apply IH.
Qed.

Lemma all_chars_rstrip (f : ascii -> bool) (s : string) :
  all_chars f s = true -> all_chars f (Str.rstrip s) = true.
Proof.
  induction s as [|c s IH]; [reflexivity|].
  cbn [Str.rstrip all_chars]. intros H. apply andb_true_iff in H as [Hc H].
  specialize (IH H). destruct (Str.rstrip s).
  - destruct (Str.is_space c); [reflexivity|]. cbn. now rewrite Hc.
  - cbn [all_chars] in *. now rewrite Hc, IH.
Qed.

(** X12.  No feed location is empty.  One that comes from ICS_URLS has no
    comma and no white space at either end, and may be the placeholder;
    one that comes from the configuration file is an entry of [icsUrls]
    other than the placeholder. *)
Theorem X12_feed_locations_are_clean
        (env_urls : string) (cfg : config) (u : string)
        (Hin : In u (resolve_ics_urls env_urls cfg)) :
  u <> ""
  /\ (Str.strip env_urls <> "" ->
      all_chars (fun c => negb (Ascii.eqb c ",")) u = true /\
      (forall c, first_char u = Some c -> Str.is_space c = false) /\
      (forall c, last_char u = Some c -> Str.is_space c = false))
  /\ (Str.strip env_urls = "" ->
      In u (get (cfg_icsUrls cfg) []) /\ u <> PLACEHOLDER)
  /\ resolve_ics_urls PLACEHOLDER cfg = [PLACEHOLDER].
Proof.
  unfold resolve_ics_urls in Hin.
  destruct (Str.strip env_urls) as [|x rest] eqn:Hs; cbn [Str.truthy] in Hin.
  - apply filter_In in Hin as [Hin Hf].
    apply andb_true_iff in Hf as [Hne Hp].
    apply negb_true_iff, String.eqb_neq in Hp.
    split; [now destruct u|]. split; [now intros []|].
    split; [now split|reflexivity].
  - apply in_map_iff in Hin as (p & <- & Hp).
    apply filter_In in Hp as [Hp Hne].
    split; [now destruct (Str.strip p)|]. split; [|split; [discriminate|reflexivity]].
    intros _. destruct (strip_trimmed p) as (_ & Hfirst & Hlast).
    split; [|split; assumption].
    unfold Str.strip. apply all_chars_rstrip, all_chars_lstrip.
    pose proof (split_no_sep "," env_urls) as Hall.
    rewrite Forall_forall in Hall. now apply Hall.
Qed.

Lemma X12_feed_locations_are_clean_witness :
  In "http://b" (resolve_ics_urls " http://a , ,http://b " Sample.cfg) /\
  "http://b" <> "" /\
  all_chars (fun c => negb (Ascii.eqb c ",")) "http://b" = true.
Proof.
  assert (In "http://b" (resolve_ics_urls " http://a , ,http://b " Sample.cfg))
    as H by (right; left; reflexivity).
  split; [exact H|].
  destruct (X12_feed_locations_are_clean _ _ _ H) as (H1 & H2 & _).
  split; [exact H1|]. exact (proj1 (H2 ltac:(discriminate))).
Defined.

(** ** Sample runs *)

Lemma X5_mixed_ends_abort_witness :
  let fd (u : string) := Decoded [Sample.dentist; Sample_mixed; Sample.call] in
  let cfg := mk_config None None None None None (Some ["http://m"; "http://c"]) in
  let w := mk_world (Some cfg) None (today Sample.w) (utcnow Sample.w)
                    Sample.zones fd in
  mixed_ends Sample_mixed /\
  get_fetch_range UTC (today w) = Ok (Sample.range_start, Sample.range_end) /\
  run w cfg "UTC" UTC = ([Stdout "Fetching: http://m…"], Raise AttributeError).
Proof.
  cbv zeta.
  assert (mixed_ends Sample_mixed) as Hm.
  { repeat split; [|now exists (mk_date 2024 6 15)].
    eexists. split; [reflexivity|discriminate]. }
  assert (get_fetch_range UTC (mk_date 2024 6 12)
          = Ok (Sample.range_start, Sample.range_end)) as Hr
      by (vm_compute; reflexivity).
  split; [exact Hm|]. split; [exact Hr|].
  refine (proj2 (proj2 (proj2
    (X5_mixed_ends_abort
       (mk_world (Some (mk_config None None None None None
                                  (Some ["http://m"; "http://c"])))
                 None (today Sample.w) (utcnow Sample.w) Sample.zones
                 (fun _ => Decoded [Sample.dentist; Sample_mixed; Sample.call]))
       (mk_config None None None None None (Some ["http://m"; "http://c"]))
       "UTC" UTC Sample.range_start Sample.range_end "http://m" ["http://c"]
       [Sample.dentist] [Sample.call] Sample_mixed _ Hr eq_refl eq_refl _ Hm)))).
  vm_compute. reflexivity.
Defined.

Lemma X8_configured_flag_witness :
  let cfg := mk_config None None None None None (Some ["http://down"]) in
  let w := mk_world (Some cfg) None (today Sample.w) (utcnow Sample.w)
                    Sample.zones (fun _ => Failed "timed out") in
  exists log out,
    run w cfg "UTC" UTC = (log, Ok out) /\
    configured out = true /\ events out = [].
Proof.
  cbv zeta.
  match goal with |- exists log out, ?r = _ /\ _ => destruct r as [l r'] eqn:Hrun end.
  assert (exists out, r' = Ok out) as [out ->].
  { vm_compute in Hrun. injection Hrun as _ <-. eauto. }
  exists l, out. split; [reflexivity|].
  destruct (X8_configured_flag _ _ _ _ _ _ Hrun) as [H1 H2].
  split; [apply H1; discriminate|].
  apply H2. intros u. now exists "timed out".
Defined.

Lemma X10_nothing_configured_witness :
  let cfg := mk_config (Some "America/New_York") None None None None
                       (Some ["YOUR_ICS_URL_HERE"]) in
  let w := mk_world (Some cfg) None (today Sample.w) (utcnow Sample.w)
                    Sample.zones Sample.feed in
  resolve_ics_urls (get (ICS_URLS w) "") cfg = [] /\
  exists now,
    isoformat now = "2024-06-12T05:00:05-04:00" /\
    run w cfg "America/New_York" America_New_York
    = ([Stdout (String (ascii_of_nat 10)
                       "✅ schedule.json written (0 total event(s))")],
       Ok (mk_schedule (isoformat now) "America/New_York" "Nikki" 20 8 19
                       false [])).
Proof.
  cbv zeta. split; [reflexivity|].
  destruct (X10_nothing_configured
              (mk_world (Some (mk_config (Some "America/New_York") None None
                                         None None (Some ["YOUR_ICS_URL_HERE"])))
                        None (today Sample.w) (utcnow Sample.w)
                        Sample.zones Sample.feed)
              (mk_config (Some "America/New_York") None None None None
                         (Some ["YOUR_ICS_URL_HERE"]))
              "America/New_York" America_New_York eq_refl)
    as (now & (Hi & Ho & Hw) & Hrun).
  - vm_compute. discriminate.
  - vm_compute. discriminate.
  - vm_compute. split; [reflexivity|discriminate].
  - exists now. split; [|exact Hrun].
    destruct now as [wl off]. cbn [wall utcoffset] in Ho, Hw. subst wl off.
    vm_compute. reflexivity.
Defined.

Lemma X11_last_updated_witness :
  exists log out now,
    run Sample.w Sample.cfg "Mars/Phobos" UTC = (log, Ok out) /\
    lastUpdated out = isoformat now /\ in_zone UTC now (utcnow Sample.w).
Proof.
  destruct (run Sample.w Sample.cfg "Mars/Phobos" UTC) as [l r] eqn:Hrun.
  assert (exists out, r = Ok out) as [out ->].
  { vm_compute in Hrun. injection Hrun as _ <-. eauto. }
  destruct (X11_last_updated _ _ _ _ _ _ Hrun) as (now & H1 & H2).
  exists l, out, now. split; [reflexivity|]. split; [exact H1|exact H2].
Defined.

(** ** Two more edges *)

(** X13.  The order of the ends is not checked: an event whose
    normalized end is before its start is appended all the same when the
    end is after the start of the window and the start before its end. *)
Theorem X13_no_order_check
        (range_start range_end : aware) (local_tz : tzinfo) (c : component)
        (raw_start : dt_value) (s e : aware)
        (Hname : name c = "VEVENT")
        (Hstart : DTSTART c = Some raw_start)
        (Htransp : marked (TRANSP c) "TRANSPARENT" = false)
        (Hbusy : marked (X_MICROSOFT_CDO_BUSYSTATUS c) "FREE" = false)
        (Hnorm : normalise local_tz raw_start (get (DTEND c) raw_start)
                 = Ok (s, e))
        (Hbackwards : instant e < instant s)
        (Hend : instant range_start < instant e)
        (Hbegin : instant s < instant range_end) :
  parse_component range_start range_end local_tz c
  = Ok (Some (mk_event (isoformat s) (isoformat e) "Busy")).
Proof.
  rewrite (parse_component_busy _ _ _ c raw_start Hname Hstart Htransp Hbusy).
  rewrite Hnorm. cbn [bind].
  replace (outside s e range_start range_end) with false; [reflexivity|].
  symmetry. apply outside_false. now split.
Qed.

Lemma X13_no_order_check_witness :
  instant (mk_aware (mk_datetime (mk_date 2024 6 14) 14 30 0) 0)
  < instant (mk_aware (mk_datetime (mk_date 2024 6 14) 15 30 0) 0) /\
  parse_component Sample.range_start Sample.range_end UTC Sample_backwards
  = Ok (Some (mk_event "2024-06-14T15:30:00+00:00"
                       "2024-06-14T14:30:00+00:00" "Busy")).
Proof.
  assert (instant (mk_aware (mk_datetime (mk_date 2024 6 14) 14 30 0) 0)
          < instant (mk_aware (mk_datetime (mk_date 2024 6 14) 15 30 0) 0)) as H
      by (vm_compute; reflexivity).
  split; [exact H|].
  refine (X13_no_order_check Sample.range_start Sample.range_end UTC
            Sample_backwards (Sample.at_utc 2024 6 14 15 30)
            (mk_aware (mk_datetime (mk_date 2024 6 14) 15 30 0) 0)
            (mk_aware (mk_datetime (mk_date 2024 6 14) 14 30 0) 0)
            eq_refl eq_refl eq_refl eq_refl _ H _ _);
    vm_compute; reflexivity.
Defined.

Lemma lstrip_blank (s : string) :
  all_chars Str.is_space s = true -> Str.lstrip s = "".
Proof.
  induction s as [|c s IH]; [reflexivity|].
  cbn [all_chars Str.lstrip]. intros H. apply andb_true_iff in H as [Hc H].
  rewrite Hc. now apply IH.
Qed.

(** X14.  A variable ICS_URLS that holds only white space counts as
    unset: the run is the run without the variable, on the list of the
    configuration file. *)
Theorem X14_blank_variable_is_unset
        (w : world) (cfg : config) (tz_name : string) (tz : tzinfo)
        (env_urls : string)
        (Hblank : all_chars Str.is_space env_urls = true) :
  resolve_ics_urls env_urls cfg = resolve_ics_urls "" cfg
  /\ run (with_ICS_URLS (Some env_urls) w) cfg tz_name tz
     = run (with_ICS_URLS None w) cfg tz_name tz.
Proof.
  assert (resolve_ics_urls env_urls cfg = resolve_ics_urls "" cfg) as E.
  { unfold resolve_ics_urls, Str.strip. now rewrite (lstrip_blank _ Hblank). }
  split; [exact E|].
  unfold run, with_ICS_URLS. cbv zeta.
  cbn [ICS_URLS today feed utcnow get]. now rewrite E.
Qed.

Lemma X14_blank_variable_is_unset_witness :
  all_chars Str.is_space "   " = true /\
  resolve_ics_urls "   " Sample.cfg = ["http://c"] /\
  run (with_ICS_URLS (Some "   ") Sample.w) Sample.cfg "UTC" UTC
  = run (with_ICS_URLS None Sample.w) Sample.cfg "UTC" UTC.
Proof.
  split; [reflexivity|]. split; [reflexivity|].
  exact (proj2 (X14_blank_variable_is_unset Sample.w Sample.cfg "UTC" UTC
                                            "   " eq_refl)).
Defined.
